(** * scripts/ai/validate.py: the Unity test-run orchestrator

    A shallow embedding of [scripts/ai/validate.py] and the properties of
    its path-normalisation, command-construction and run-sequencing code.

    Modelling conventions.
    - A Python [str] is a [string]; every character is a code point below
      256, and [Py.isspace] is [str.isspace] on that range.
    - [str | None] is [option string]; truthiness is [Py.truthy].
    - A [pathlib.Path] is carried by its [str()] form; the pathlib
      operations the script uses ([/], [resolve], [is_file]) are functions
      of the host.
    - [raise SystemExit(msg)] is the result [Raise (SystemExit msg)].
    - Everything the script does to the outside (spawning a process,
      printing a line, creating a directory) is appended to a trace of
      events; what the outside answers is read from a [Host].
    - Every primitive step answers: a process that cannot be started or a
      directory that cannot be created is an error of the interpreter,
      which the script does not handle, and is not part of the model.
    - [parse_args] is argparse glue; the model starts from its result. *)

From Stdlib Require Import ZArith String Ascii List Bool Lia DecimalString.
From Stdlib Require Import DecimalPos DecimalZ.
From stdpp Require Import base strings gmap list.

Local Open Scope string_scope.
Local Open Scope list_scope.

#[local] Arguments String.append : simpl nomatch.

(** ** Python primitives used by the script *)

Module Py.

(** [bool(x)] for [x : str | None]. *)
Definition truthy (x : option string) : bool :=
  match x with
  | Some (String _ _) => true
  | Some EmptyString => false
  | None => false
  end.

(** [a or b] on [str | None]. *)
Definition or_ (a b : option string) : option string :=
  if truthy a then a else b.

(** [c.isspace()] for a code point below 256:
    TAB..CR, FS..US, SPACE, NEL (0x85) and NBSP (0xa0). *)
Definition isspace (c : ascii) : bool :=
  let n := nat_of_ascii c in
  ((9 <=? n)%nat && (n <=? 13)%nat)
  || ((28 <=? n)%nat && (n <=? 32)%nat)
  || (n =? 133)%nat
  || (n =? 160)%nat.

Fixpoint lstrip (s : string) : string :=
  match s with
  | EmptyString => EmptyString
  | String c s' => if isspace c then lstrip s' else s
  end.

Fixpoint rstrip (s : string) : string :=
  match s with
  | EmptyString => EmptyString
  | String c s' =>
      match rstrip s' with
      | EmptyString => if isspace c then EmptyString else String c EmptyString
      | r => String c r
      end
  end.

(** [s.strip()]: whitespace is removed at both ends. *)
Definition strip (s : string) : string := rstrip (lstrip s).

(** [sub in s]. *)
Fixpoint contains (sub s : string) : bool :=
  String.prefix sub s
  || match s with
     | EmptyString => false
     | String _ s' => contains sub s'
     end.

(** [s[i]] where the caller has checked [i < len(s)]. *)
Definition index (s : string) (i : nat) : option ascii := String.get i s.

(** [str(n)] for an [int]. *)
Definition str_of_int (n : Z) : string := NilZero.string_of_int (Z.to_int n).

(** [sep.join(parts)]. *)
Definition join (sep : string) (parts : list string) : string :=
  String.concat sep parts.

End Py.

(** The two characters that cannot be written inside a literal. *)
Definition backslash : ascii := "092"%char.
Definition dquote : string := String "034"%char EmptyString.

(** ** The outside world *)

(** [subprocess.CompletedProcess], with both captured streams. *)
Record CompletedProcess := {
  returncode : Z;
  stdout : string;
  stderr : string
}.

Inductive Event :=
| Spawn (cmd : list string)   (* subprocess.run(cmd, ...) *)
| Print (line : string)       (* print(line) *)
| Mkdir (dir : string).       (* Path(dir).mkdir(parents=True, exist_ok=True) *)

(** What the operating system answers.  A process may answer differently
    each time it is run: its outcome is a function of the events so far. *)
Record Host := {
  environ : gmap string string;                               (* os.environ *)
  run_process : list Event -> list string -> CompletedProcess;
  is_file : string -> bool;                                   (* Path(p).is_file() *)
  path_resolve : string -> string;                            (* str(Path(p).resolve()) *)
  path_join : string -> string -> string;                     (* str(Path(d) / name) *)
  clock : string               (* datetime.now().strftime("%Y%m%d-%H%M%S") *)
}.

(** The exits of the script's own [raise SystemExit(msg)] statements. *)
Inductive Exception :=
| SystemExit (msg : string).

Inductive Result (A : Type) :=
| Ok (a : A)
| Raise (e : Exception).
Arguments Ok {A} a.
Arguments Raise {A} e.

(** A computation reads the host and extends the trace. *)
Definition M (A : Type) : Type := Host -> list Event -> Result A * list Event.

Definition ret {A} (a : A) : M A := fun _ t => (Ok a, t).

Definition raise {A} (e : Exception) : M A := fun _ t => (Raise e, t).

Definition bind {A B} (m : M A) (k : A -> M B) : M B :=
  fun h t =>
    match m h t with
    | (Ok a, t') => k a h t'
    | (Raise e, t') => (Raise e, t')
    end.

Notation "'let*' x ':=' m 'in' k" := (bind m (fun x => k))
  (at level 10, x name, m at level 100, k at level 200).
Notation "m ';;' k" := (bind m (fun _ => k))
  (at level 100, k at level 200, right associativity).

Definition os_environ : M (gmap string string) := fun h t => (Ok (environ h), t).

(** [subprocess.run(cmd, check=False)] for a process that starts. *)
Definition subprocess_run (cmd : list string) : M CompletedProcess :=
  fun h t => (Ok (run_process h t cmd), t ++ [Spawn cmd]).

Definition print (line : string) : M unit := fun _ t => (Ok tt, t ++ [Print line]).

(** [Path(dir).mkdir(parents=True, exist_ok=True)] where it succeeds. *)
Definition mkdir (dir : string) : M unit := fun _ t => (Ok tt, t ++ [Mkdir dir]).

Definition Path_is_file (p : string) : M bool := fun h t => (Ok (is_file h p), t).

Definition Path_resolve (p : string) : M string := fun h t => (Ok (path_resolve h p), t).

Definition Path_div (d name : string) : M string := fun h t => (Ok (path_join h d name), t).

Definition now_strftime : M string := fun h t => (Ok (clock h), t).

(** ** The script *)

Definition is_wsl : M bool :=
  let* env := os_environ in
  ret (bool_decide (is_Some (env !! "WSL_DISTRO_NAME"))
       || bool_decide (is_Some (env !! "WSL_INTEROP"))).

Definition looks_like_windows_path (path : string) : bool :=
  if (3 <=? String.length path)%nat
     && bool_decide (Py.index path 1 = Some ":"%char)
     && (bool_decide (Py.index path 2 = Some backslash)
         || bool_decide (Py.index path 2 = Some "/"%char))
  then true
  else if Py.contains (String backslash EmptyString) path then true
  else false.

Definition run_wslpath (arg value : string) : M string :=
  let* completed := subprocess_run ["wslpath"; arg; value] in
  if negb (returncode completed =? 0)%Z
  then raise (SystemExit ("Error: failed to convert path via wslpath: " +:+ value))
  else ret (Py.strip (stdout completed)).

Definition to_unix_path (path : string) : M string :=
  let* wsl := is_wsl in
  if wsl && looks_like_windows_path path
  then run_wslpath "-u" path
  else ret path.

Definition to_windows_path (path : string) : M string :=
  let* wsl := is_wsl in
  if wsl
  then run_wslpath "-w" path
  else ret path.

(** The [match] is [if not unity: raise ...]: [unity] goes on only when it
    is a non-empty string. *)
Definition resolve_unity_path (cli_unity : option string) (dry_run : bool) : M string :=
  let* env := os_environ in
  match Py.or_ cli_unity (env !! "UNITY_EDITOR_PATH") with
  | Some (String c rest) =>
      let* unity := to_unix_path (String c rest) in
      let* missing :=
        (* not dry_run and not Path(unity).is_file() *)
        if negb dry_run
        then (let* found := Path_is_file unity in ret (negb found))
        else ret false in
      if missing
      then raise (SystemExit ("Error: Unity editor not found at '" +:+ unity +:+ "'."))
      else ret unity
  | _ =>
      raise (SystemExit "Error: Unity path is required. Use --unity or set UNITY_EDITOR_PATH.")
  end.

(** The [match] is [if test_filter: args.extend([...])]. *)
Definition build_args (project_path platform results_file log_file : string)
    (test_filter : option string) : M (list string) :=
  let* normalized_project_path := to_windows_path project_path in
  let* normalized_results_file := to_windows_path results_file in
  let* normalized_log_file := to_windows_path log_file in
  let args :=
    [ "-batchmode";
      "-projectPath";
      normalized_project_path;
      "-runTests";
      "-testPlatform";
      platform;
      "-testResults";
      normalized_results_file;
      "-logFile";
      normalized_log_file;
      "-quit" ] in
  match test_filter with
  | Some (String c rest) => ret (args ++ ["-testFilter"; String c rest])
  | _ => ret args
  end.

Definition quote (s : string) : string := dquote +:+ s +:+ dquote.

Definition run_one (unity project_path platform results_file log_file : string)
    (test_filter : option string) (dry_run : bool) : M unit :=
  let* args := build_args project_path platform results_file log_file test_filter in
  print ("[validate] platform=" +:+ platform) ;;
  print ("[validate] results=" +:+ results_file) ;;
  print ("[validate] log=" +:+ log_file) ;;
  if dry_run
  then
    let quoted := Py.join " " ([quote unity] ++ map quote args) in
    print ("[dry-run] " +:+ quoted)
  else
    let cmd := [unity] ++ args in
    let* completed := subprocess_run cmd in
    if negb (returncode completed =? 0)%Z
    then raise (SystemExit ("Error: Unity test run failed with exit code "
                            +:+ Py.str_of_int (returncode completed) +:+ "."))
    else ret tt.

(** ** Command line *)

Inductive Command := single | suite | full.

Inductive Platform := EditMode | PlayMode.

(** What [parse_args] returns: argparse has already restricted [command]
    and [--platform] to their choices. *)
Module Namespace.
Record t := {
  command : Command;
  platform : option Platform;
  filter : option string;
  unity : option string;
  project_path : string;
  results_dir : string;
  logs_dir : string;
  dry_run : bool
}.
End Namespace.

Definition Command_str (c : Command) : string :=
  match c with
  | single => "single"
  | suite => "suite"
  | full => "full"
  end.

(** How an f-string renders [args.platform]; [None] does not get that far,
    [main] has raised before. *)
Definition Platform_str (p : option Platform) : string :=
  match p with
  | Some EditMode => "EditMode"
  | Some PlayMode => "PlayMode"
  | None => "None"
  end.

Definition main (args : Namespace.t) : M unit :=
  let command := Namespace.command args in
  if match command with single | suite => true | full => false end
     && negb (bool_decide (is_Some (Namespace.platform args)))
  then raise (SystemExit ("Error: " +:+ Command_str command +:+ " requires --platform."))
  else
  if match command with single => true | _ => false end
     && negb (Py.truthy (Namespace.filter args))
  then raise (SystemExit "Error: single requires --filter.")
  else
  let* unity := resolve_unity_path (Namespace.unity args) (Namespace.dry_run args) in
  let* project_path := Path_resolve (Namespace.project_path args) in
  let results_dir := Namespace.results_dir args in
  let logs_dir := Namespace.logs_dir args in
  mkdir results_dir ;;
  mkdir logs_dir ;;
  let* timestamp := now_strftime in
  (match command with
   | single =>
       let platform := Platform_str (Namespace.platform args) in
       let* results_file := Path_div results_dir (platform +:+ "-single-" +:+ timestamp +:+ ".xml") in
       let* log_file := Path_div logs_dir (platform +:+ "-single-" +:+ timestamp +:+ ".log") in
       run_one unity project_path platform results_file log_file
         (Namespace.filter args) (Namespace.dry_run args)
   | suite =>
       let platform := Platform_str (Namespace.platform args) in
       let* results_file := Path_div results_dir (platform +:+ "-suite-" +:+ timestamp +:+ ".xml") in
       let* log_file := Path_div logs_dir (platform +:+ "-suite-" +:+ timestamp +:+ ".log") in
       run_one unity project_path platform results_file log_file
         None (Namespace.dry_run args)
   | full =>
       (let* results_file := Path_div results_dir ("EditMode-suite-" +:+ timestamp +:+ ".xml") in
        let* log_file := Path_div logs_dir ("EditMode-suite-" +:+ timestamp +:+ ".log") in
        run_one unity project_path "EditMode" results_file log_file
          None (Namespace.dry_run args)) ;;
       (let* results_file := Path_div results_dir ("PlayMode-suite-" +:+ timestamp +:+ ".xml") in
        let* log_file := Path_div logs_dir ("PlayMode-suite-" +:+ timestamp +:+ ".log") in
        run_one unity project_path "PlayMode" results_file log_file
          None (Namespace.dry_run args))
   end) ;;
  print "[validate] done".

(** A run of the whole program starts with an empty trace. *)
Definition run_main (args : Namespace.t) (h : Host) : Result unit * list Event :=
  main args h [].

(** ** Observing a trace *)

(** A converter call is [wslpath <mode> <path>]; every other spawned
    process is a launch of the runner. *)
Definition is_converter_call (cmd : list string) : bool :=
  match cmd with
  | [tool; _; _] => String.eqb tool "wslpath"
  | _ => false
  end.

Definition launch_of (e : Event) : option (list string) :=
  match e with
  | Spawn cmd => if is_converter_call cmd then None else Some cmd
  | _ => None
  end.

Definition print_of (e : Event) : option string :=
  match e with
  | Print line => Some line
  | _ => None
  end.

Definition spawn_of (e : Event) : option (list string) :=
  match e with
  | Spawn cmd => Some cmd
  | _ => None
  end.

(** The runner command lines launched, the arguments of the calls of
    [print] (one entry per call, whatever newlines the argument holds) and
    all the processes spawned along a trace, each in order. *)
Definition launched (t : list Event) : list (list string) := omap launch_of t.
Definition printed (t : list Event) : list string := omap print_of t.
Definition spawned (t : list Event) : list (list string) := omap spawn_of t.

(** The fixed part of an invocation, and the filter pair that may follow. *)
Definition invocation (project_path platform results_file log_file : string) : list string :=
  [ "-batchmode"; "-projectPath"; project_path; "-runTests"; "-testPlatform"; platform;
    "-testResults"; results_file; "-logFile"; log_file; "-quit" ].

Definition filter_pair (test_filter : option string) : list string :=
  match test_filter with
  | Some (String c rest) => ["-testFilter"; String c rest]
  | _ => []
  end.

(** The three progress lines of a run. *)
Definition progress (platform results_file log_file : string) : list string :=
  [ "[validate] platform=" +:+ platform;
    "[validate] results=" +:+ results_file;
    "[validate] log=" +:+ log_file ].

(** The line a dry run prints instead of launching the command. *)
Definition echo (cmd : list string) : string :=
  "[dry-run] " +:+ Py.join " " (map quote cmd).

(** ** The error taxonomy of the specification, on the script's messages *)

(** The script raises nothing but [SystemExit] with a message; the kinds
    of error of the specification are told by the message. *)

Definition ConfigurationError (e : Exception) : Prop :=
  e = SystemExit "Error: Unity path is required. Use --unity or set UNITY_EDITOR_PATH."
  \/ e = SystemExit "Error: single requires --filter."
  \/ exists c, e = SystemExit ("Error: " +:+ Command_str c +:+ " requires --platform.").

Definition PathConversionError (e : Exception) : Prop :=
  exists value, e = SystemExit ("Error: failed to convert path via wslpath: " +:+ value).

Definition ExecutableNotFoundError (e : Exception) : Prop :=
  exists unity, e = SystemExit ("Error: Unity editor not found at '" +:+ unity +:+ "'.").

Definition RunnerFailedError (e : Exception) : Prop :=
  exists code, code <> 0%Z
    /\ e = SystemExit ("Error: Unity test run failed with exit code "
                       +:+ Py.str_of_int code +:+ ".").

Definition unity_path_required : Exception :=
  SystemExit "Error: Unity path is required. Use --unity or set UNITY_EDITOR_PATH.".

Definition runner_failed (code : Z) : Exception :=
  SystemExit ("Error: Unity test run failed with exit code " +:+ Py.str_of_int code +:+ ".").

(** The failures of a command: configuration and path-conversion errors,
    and, unless the run is simulated, a missing executable or a failed
    runner. *)
Definition may_raise (dry_run : bool) (e : Exception) : Prop :=
  ConfigurationError e
  \/ PathConversionError e
  \/ (dry_run = false /\ (ExecutableNotFoundError e \/ RunnerFailedError e)).

(** ** Properties of computations *)

Definition inside_wsl (h : Host) : Prop :=
  "WSL_DISTRO_NAME" ∈ dom (environ h) \/ "WSL_INTEROP" ∈ dom (environ h).

#[local] Instance inside_wsl_dec (h : Host) : Decision (inside_wsl h).
Proof. unfold inside_wsl. apply _. Defined.

(** A computation keeps an observation of the trace when none of the
    events it adds is seen by the observer. *)
Definition keeps {X A} (f : Event -> option X) (m : M A) : Prop :=
  forall h t, omap f (snd (m h t)) = omap f t.

(** The exceptions a computation can raise. *)
Definition raises_only {A} (P : Exception -> Prop) (m : M A) : Prop :=
  forall h t e t', m h t = (Raise e, t') -> P e.


(** A computation ignores the file system when replacing the answers of
    [is_file] changes nothing. *)
Definition with_is_file (present : string -> bool) (h : Host) : Host :=
  {| environ := environ h;
     run_process := run_process h;
     is_file := present;
     path_resolve := path_resolve h;
     path_join := path_join h;
     clock := clock h |}.

Definition ignores_files {A} (m : M A) : Prop :=
  forall present h t, m (with_is_file present h) t = m h t.

Definition with_filter (test_filter : option string) (args : Namespace.t) : Namespace.t :=
  {| Namespace.command := Namespace.command args;
     Namespace.platform := Namespace.platform args;
     Namespace.filter := test_filter;
     Namespace.unity := Namespace.unity args;
     Namespace.project_path := Namespace.project_path args;
     Namespace.results_dir := Namespace.results_dir args;
     Namespace.logs_dir := Namespace.logs_dir args;
     Namespace.dry_run := Namespace.dry_run args |}.

(** ** Properties of strings *)

Fixpoint blank (s : string) : bool :=
  match s with
  | EmptyString => true
  | String c s' => Py.isspace c && blank s'
  end.

Definition first_char (s : string) : option ascii :=
  match s with
  | EmptyString => None
  | String c _ => Some c
  end.

Fixpoint last_char (s : string) : option ascii :=
  match s with
  | EmptyString => None
  | String c EmptyString => Some c
  | String _ s' => last_char s'
  end.

(** The recogniser of the specification's words: a drive LETTER, a colon
    and a separator, or a backslash anywhere. *)
Definition is_letter (c : ascii) : bool :=
  let n := nat_of_ascii c in
  ((65 <=? n)%nat && (n <=? 90)%nat) || ((97 <=? n)%nat && (n <=? 122)%nat).

Definition spec_foreign_path (path : string) : bool :=
  match path with
  | String d (String c (String sep _)) =>
      is_letter d && Ascii.eqb c ":"%char
      && (Ascii.eqb sep backslash || Ascii.eqb sep "/"%char)
  | _ => false
  end
  || Py.contains (String backslash EmptyString) path.

(** ** Hosts and command lines on which the model is run *)

Definition completed_ok (out : string) : CompletedProcess :=
  {| returncode := 0; stdout := out; stderr := EmptyString |}.

Definition newline : string := String "010"%char EmptyString.

Definition linux_host : Host :=
  {| environ := <[ "UNITY_EDITOR_PATH" := "/opt/unity/Editor/Unity" ]> ∅;
     run_process := fun _ _ => completed_ok EmptyString;
     is_file := fun p => String.eqb p "/opt/unity/Editor/Unity";
     path_resolve := fun p => p;
     path_join := fun d name => d +:+ "/" +:+ name;
     clock := "20240102-030405" |}.

(** Inside the compatibility layer; the converter answers every call with
    the same line, padded with a blank on the left and a newline. *)
Definition wsl_host : Host :=
  {| environ := <[ "WSL_DISTRO_NAME" := "Ubuntu" ]> ∅;
     run_process := fun _ cmd =>
       if is_converter_call cmd
       then completed_ok (" /mnt/c/x" +:+ newline)
       else completed_ok EmptyString;
     is_file := fun _ => true;
     path_resolve := fun p => p;
     path_join := fun d name => d +:+ "/" +:+ name;
     clock := "20240102-030405" |}.

(** Inside the compatibility layer, with a converter that always fails. *)
Definition broken_wsl_host : Host :=
  {| environ := <[ "WSL_INTEROP" := "/run/WSL/8_interop" ]> ∅;
     run_process := fun _ _ =>
       {| returncode := 1; stdout := EmptyString; stderr := "wslpath: boom" |};
     is_file := fun _ => true;
     path_resolve := fun p => p;
     path_join := fun d name => d +:+ "/" +:+ name;
     clock := "20240102-030405" |}.


(** A runner that fails the first time it is launched and passes after. *)
Definition flaky_host : Host :=
  {| environ := <[ "UNITY_EDITOR_PATH" := "/opt/unity/Editor/Unity" ]> ∅;
     run_process := fun t cmd =>
       if is_converter_call cmd then completed_ok EmptyString
       else match launched t with
            | [] => {| returncode := 3; stdout := EmptyString; stderr := EmptyString |}
            | _ => completed_ok EmptyString
            end;
     is_file := fun p => String.eqb p "/opt/unity/Editor/Unity";
     path_resolve := fun p => p;
     path_join := fun d name => d +:+ "/" +:+ name;
     clock := "20240102-030405" |}.

Definition full_args : Namespace.t :=
  {| Namespace.command := full;
     Namespace.platform := None;
     Namespace.filter := None;
     Namespace.unity := None;
     Namespace.project_path := "/work/proj";
     Namespace.results_dir := "Temp/AIValidation";
     Namespace.logs_dir := "Temp/AIValidation/logs";
     Namespace.dry_run := false |}.

Definition single_args_no_filter : Namespace.t :=
  {| Namespace.command := single;
     Namespace.platform := Some EditMode;
     Namespace.filter := None;
     Namespace.unity := Some "/opt/unity/Editor/Unity";
     Namespace.project_path := "/work/proj";
     Namespace.results_dir := "Temp/AIValidation";
     Namespace.logs_dir := "Temp/AIValidation/logs";
     Namespace.dry_run := false |}.

Definition dry_args : Namespace.t :=
  {| Namespace.command := single;
     Namespace.platform := Some EditMode;
     Namespace.filter := Some "MyTest";
     Namespace.unity := Some "/opt/unity/Editor/Unity";
     Namespace.project_path := "/work/proj";
     Namespace.results_dir := "Temp/AIValidation";
     Namespace.logs_dir := "Temp/AIValidation/logs";
     Namespace.dry_run := true |}.

Definition suite_args_with_filter : Namespace.t :=
  {| Namespace.command := suite;
     Namespace.platform := Some PlayMode;
     Namespace.filter := Some "MyTest";
     Namespace.unity := Some "/opt/unity/Editor/Unity";
     Namespace.project_path := "/work/proj";
     Namespace.results_dir := "Temp/AIValidation";
     Namespace.logs_dir := "Temp/AIValidation/logs";
     Namespace.dry_run := false |}.

(** ** Further observers, predicates and hosts *)

Definition mkdir_of (e : Event) : option string :=
  match e with
  | Mkdir dir => Some dir
  | _ => None
  end.

(** The directories created along a trace, in order. *)
Definition made_dirs (t : list Event) : list string := omap mkdir_of t.

(** A computation only ever appends to the trace, and every event it
    appends satisfies [E]. *)
Definition emits {A} (E : Event -> Prop) (m : M A) : Prop :=
  forall h t, exists body, snd (m h t) = t ++ body /\ Forall E body.

Definition converter_event (e : Event) : Prop :=
  exists arg value, e = Spawn ["wslpath"; arg; value].

Definition done_line : string := "[validate] done".

(** What a run may add to the trace: processes, and lines other than the
    completion marker; never a directory. *)
Definition run_event (e : Event) : Prop :=
  match e with
  | Spawn _ => True
  | Print line => line <> done_line
  | Mkdir _ => False
  end.

Definition conversion_failed (value : string) : Exception :=
  SystemExit ("Error: failed to convert path via wslpath: " +:+ value).

Definition executable_not_found (unity : string) : Exception :=
  SystemExit ("Error: Unity editor not found at '" +:+ unity +:+ "'.").

Definition with_environ (env : gmap string string) (h : Host) : Host :=
  {| environ := env;
     run_process := run_process h;
     is_file := is_file h;
     path_resolve := path_resolve h;
     path_join := path_join h;
     clock := clock h |}.

(** Inside the compatibility layer; the converter prints nothing but a
    newline. *)
Definition blank_wsl_host : Host :=
  {| environ := <[ "WSL_DISTRO_NAME" := EmptyString ]> ∅;
     run_process := fun _ _ => completed_ok newline;
     is_file := fun _ => true;
     path_resolve := fun p => p;
     path_join := fun d name => d +:+ "/" +:+ name;
     clock := "20240102-030405" |}.

Definition single_args : Namespace.t :=
  {| Namespace.command := single;
     Namespace.platform := Some PlayMode;
     Namespace.filter := Some "MyTest";
     Namespace.unity := None;
     Namespace.project_path := "/work/proj";
     Namespace.results_dir := "Temp/AIValidation";
     Namespace.logs_dir := "Temp/AIValidation/logs";
     Namespace.dry_run := false |}.

(** * Properties *)

(** ** The model at work *)

Example looks_like_windows_path_examples :
  map looks_like_windows_path
    ["C:\Unity\Unity.exe"; "C:/Unity/Unity.exe"; "share\dir"; "/opt/unity/Unity"; "C:"; "1:/x"]
  = [true; true; true; false; false; true].
Proof. reflexivity. Qed.

Example strip_example : Py.strip ("  /mnt/c/Unity " +:+ newline) = "/mnt/c/Unity".
Proof. reflexivity. Qed.

Example str_of_int_examples : map Py.str_of_int [0; 1; 139; -9]%Z = ["0"; "1"; "139"; "-9"].
Proof. reflexivity. Qed.

(** A full run on a plain host: two directories, then for each platform
    the progress lines and the launch, then the completion marker. *)
Example full_run_trace :
  run_main full_args linux_host
  = (Ok tt,
     [ Mkdir "Temp/AIValidation";
       Mkdir "Temp/AIValidation/logs";
       Print "[validate] platform=EditMode";
       Print "[validate] results=Temp/AIValidation/EditMode-suite-20240102-030405.xml";
       Print "[validate] log=Temp/AIValidation/logs/EditMode-suite-20240102-030405.log";
       Spawn [ "/opt/unity/Editor/Unity"; "-batchmode"; "-projectPath"; "/work/proj";
               "-runTests"; "-testPlatform"; "EditMode";
               "-testResults"; "Temp/AIValidation/EditMode-suite-20240102-030405.xml";
               "-logFile"; "Temp/AIValidation/logs/EditMode-suite-20240102-030405.log";
               "-quit" ];
       Print "[validate] platform=PlayMode";
       Print "[validate] results=Temp/AIValidation/PlayMode-suite-20240102-030405.xml";
       Print "[validate] log=Temp/AIValidation/logs/PlayMode-suite-20240102-030405.log";
       Spawn [ "/opt/unity/Editor/Unity"; "-batchmode"; "-projectPath"; "/work/proj";
               "-runTests"; "-testPlatform"; "PlayMode";
               "-testResults"; "Temp/AIValidation/PlayMode-suite-20240102-030405.xml";
               "-logFile"; "Temp/AIValidation/logs/PlayMode-suite-20240102-030405.log";
               "-quit" ];
       Print "[validate] done" ]).
Proof. vm_compute. reflexivity. Qed.

(** A dry run of one test: nothing is spawned, and in the echoed command
    line every argument is quoted on its own, the filter pair last. *)
Example dry_run_single :
  let (r, t) := run_main dry_args linux_host in
  r = Ok tt
  /\ spawned t = []
  /\ exists line,
       printed t !! 3%nat = Some line
       /\ Py.contains (quote "-testPlatform" +:+ " " +:+ quote "EditMode") line = true
       /\ Py.contains (quote "-quit" +:+ " " +:+ quote "-testFilter" +:+ " " +:+ quote "MyTest")
            line = true.
Proof.
  vm_compute. split; [reflexivity |]. split; [reflexivity |].
  eexists. split; [reflexivity |]. split; reflexivity.
Qed.

(** Inside the compatibility layer every path handed to the runner goes
    through the converter, three calls per run. *)
Example wsl_suite_spawns :
  map length (spawned (snd (run_main suite_args_with_filter wsl_host)))
  = [3; 3; 3; 12]%nat.
Proof. vm_compute. reflexivity. Qed.

(** ** Strings *)

Lemma append_nil_r (s : string) : s +:+ EmptyString = s.
Proof. induction s as [|c s IH]; simpl; [reflexivity | now f_equal]. Qed.

Lemma append_assoc (a b c : string) : (a +:+ b) +:+ c = a +:+ (b +:+ c).
Proof. induction a as [|x a IH]; simpl; [reflexivity | now f_equal]. Qed.

Lemma prefix_refl_app (s r : string) : String.prefix s (s +:+ r) = true.
Proof.
  induction s as [|c s IH]; simpl; [now destruct r |].
  destruct (ascii_dec c c) as [_|Hne]; [exact IH | now destruct Hne].
Qed.

Lemma contains_unfold (sub s : string) :
  Py.contains sub s
  = String.prefix sub s
    || match s with
       | EmptyString => false
       | String _ s' => Py.contains sub s'
       end.
Proof. destruct s; reflexivity. Qed.

Lemma contains_app (a s r : string) : Py.contains s (a +:+ s +:+ r) = true.
Proof.
  induction a as [|c a IH].
  - change (EmptyString +:+ s +:+ r) with (s +:+ r).
    now rewrite contains_unfold, prefix_refl_app.
  - change (String c a +:+ s +:+ r) with (String c (a +:+ s +:+ r)).
    rewrite contains_unfold, IH. apply orb_true_r.
Qed.

Lemma contains_suffix (a s : string) : Py.contains s (a +:+ s) = true.
Proof. pose proof (contains_app a s EmptyString) as H. now rewrite append_nil_r in H. Qed.

Lemma lstrip_split (s : string) :
  exists l, s = l +:+ Py.lstrip s /\ blank l = true.
Proof.
  induction s as [|c s [l [Hs Hl]]]; simpl.
  - exists EmptyString. split; reflexivity.
  - destruct (Py.isspace c) eqn:Hc.
    + exists (String c l). simpl. rewrite Hc, Hl. split; [congruence | reflexivity].
    + exists EmptyString. split; reflexivity.
Qed.

Lemma lstrip_first (s : string) (c : ascii) :
  first_char (Py.lstrip s) = Some c -> Py.isspace c = false.
Proof.
  induction s as [|x s IH]; simpl; [discriminate |].
  destruct (Py.isspace x) eqn:Hx; [exact IH |].
  simpl. intros [= <-]. exact Hx.
Qed.

Lemma rstrip_split (s : string) :
  exists r, s = Py.rstrip s +:+ r /\ blank r = true.
Proof.
  induction s as [|c s [r [Hs Hr]]]; simpl.
  - exists EmptyString. split; reflexivity.
  - destruct (Py.rstrip s) as [|d u] eqn:E.
    + destruct (Py.isspace c) eqn:Hc.
      * exists (String c r). simpl in *. rewrite Hc, Hr. split; [congruence | reflexivity].
      * exists r. simpl in *. split; [congruence | exact Hr].
    + exists r. simpl in *. split; [congruence | exact Hr].
Qed.

Lemma rstrip_last (s : string) (c : ascii) :
  last_char (Py.rstrip s) = Some c -> Py.isspace c = false.
Proof.
  induction s as [|x s IH]; simpl; [discriminate |].
  destruct (Py.rstrip s) as [|d u] eqn:E.
  - destruct (Py.isspace x) eqn:Hx; simpl; [discriminate |].
    intros [= <-]. exact Hx.
  - simpl. exact IH.
Qed.

Lemma rstrip_first (s : string) (c : ascii) :
  first_char s = Some c -> Py.isspace c = false ->
  first_char (Py.rstrip s) = Some c.
Proof.
  destruct s as [|x s]; simpl; [discriminate |].
  intros [= ->] Hc. destruct (Py.rstrip s); [rewrite Hc |]; reflexivity.
Qed.

Lemma rstrip_first_inv (s : string) (c : ascii) :
  first_char (Py.rstrip s) = Some c -> first_char s = Some c.
Proof.
  destruct s as [|x s]; simpl; [discriminate |].
  destruct (Py.rstrip s); [destruct (Py.isspace x) |]; simpl; congruence.
Qed.

(** [strip] cuts a blank prefix and a blank suffix, and nothing more. *)
Lemma strip_spec (s : string) :
  exists l r,
    s = l +:+ Py.strip s +:+ r
    /\ blank l = true /\ blank r = true
    /\ (forall c, first_char (Py.strip s) = Some c -> Py.isspace c = false)
    /\ (forall c, last_char (Py.strip s) = Some c -> Py.isspace c = false).
Proof.
  unfold Py.strip.
  destruct (lstrip_split s) as [l [Hl Bl]].
  destruct (rstrip_split (Py.lstrip s)) as [r [Hr Br]].
  exists l, r. repeat split; try assumption.
  - rewrite <- Hr. exact Hl.
  - intros c Hc. apply rstrip_first_inv in Hc. now apply lstrip_first in Hc.
  - intros c. apply rstrip_last.
Qed.

(** ** Environment detector *)

Lemma is_wsl_run (h : Host) (t : list Event) :
  is_wsl h t = (Ok (bool_decide (inside_wsl h)), t).
Proof.
  unfold is_wsl, bind, os_environ, ret, inside_wsl. f_equal. f_equal.
  destruct (decide ("WSL_DISTRO_NAME" ∈ dom (environ h))) as [H1|H1];
    destruct (decide ("WSL_INTEROP" ∈ dom (environ h))) as [H2|H2];
    pose proof H1 as H1'; pose proof H2 as H2';
    rewrite elem_of_dom in H1'; rewrite elem_of_dom in H2';
    rewrite ?(bool_decide_eq_true_2 _ H1'), ?(bool_decide_eq_false_2 _ H1'),
            ?(bool_decide_eq_true_2 _ H2'), ?(bool_decide_eq_false_2 _ H2');
    simpl; symmetry;
    first [ apply bool_decide_eq_true_2 | apply bool_decide_eq_false_2 ]; tauto.
Qed.

(** Settles [inside_wsl h] or its negation on a concrete host. *)
Ltac decide_wsl :=
  match goal with
  | |- ~ ?P => apply (bool_decide_eq_false_1 P)
  | |- ?P => apply (bool_decide_eq_true_1 P)
  end; vm_compute; reflexivity.

Lemma is_wsl_inside (h : Host) (t : list Event) :
  inside_wsl h -> is_wsl h t = (Ok true, t).
Proof. intros H. rewrite is_wsl_run. now rewrite (bool_decide_eq_true_2 _ H). Qed.

Lemma is_wsl_outside (h : Host) (t : list Event) :
  ~ inside_wsl h -> is_wsl h t = (Ok false, t).
Proof. intros H. rewrite is_wsl_run. now rewrite (bool_decide_eq_false_2 _ H). Qed.

(** ** Path translator *)

Lemma run_wslpath_run (arg value : string) (h : Host) (t : list Event) :
  run_wslpath arg value h t
  = (let completed := run_process h t ["wslpath"; arg; value] in
     if (returncode completed =? 0)%Z
     then Ok (Py.strip (stdout completed))
     else Raise (SystemExit ("Error: failed to convert path via wslpath: " +:+ value)),
     t ++ [Spawn ["wslpath"; arg; value]]).
Proof.
  unfold run_wslpath, bind, subprocess_run, raise, ret.
  now destruct (returncode _ =? 0)%Z.
Qed.

Lemma to_windows_path_run (path : string) (h : Host) (t : list Event) :
  to_windows_path path h t
  = if bool_decide (inside_wsl h) then run_wslpath "-w" path h t else (Ok path, t).
Proof.
  unfold to_windows_path, bind. rewrite is_wsl_run.
  now destruct (bool_decide (inside_wsl h)).
Qed.

Lemma to_unix_path_run (path : string) (h : Host) (t : list Event) :
  to_unix_path path h t
  = if bool_decide (inside_wsl h) && looks_like_windows_path path
    then run_wslpath "-u" path h t
    else (Ok path, t).
Proof.
  unfold to_unix_path, bind. rewrite is_wsl_run.
  now destruct (bool_decide (inside_wsl h) && looks_like_windows_path path).
Qed.

(** C7 (as amended). When the converter exits non-zero, [run_wslpath]
    raises a path-conversion error whose message is the fixed text
    followed by the offending path, and so contains that path; nothing the
    converter reported is part of the message. *)
Theorem run_wslpath_failure (arg value : string) (h : Host) (t : list Event) :
  returncode (run_process h t ["wslpath"; arg; value]) <> 0%Z ->
  let msg := "Error: failed to convert path via wslpath: " +:+ value in
  run_wslpath arg value h t
  = (Raise (SystemExit msg), t ++ [Spawn ["wslpath"; arg; value]])
  /\ PathConversionError (SystemExit msg)
  /\ Py.contains value msg = true.
Proof.
  intros Hrc msg. rewrite run_wslpath_run. cbv zeta.
  apply Z.eqb_neq in Hrc. rewrite Hrc. repeat split.
  - now exists value.
  - apply contains_suffix.
Qed.

Lemma run_wslpath_failure_witness :
  run_wslpath "-u" "C:/Unity/Unity.exe" broken_wsl_host []
  = (Raise (SystemExit "Error: failed to convert path via wslpath: C:/Unity/Unity.exe"),
     [Spawn ["wslpath"; "-u"; "C:/Unity/Unity.exe"]]).
Proof.
  apply (run_wslpath_failure "-u" "C:/Unity/Unity.exe" broken_wsl_host []).
  vm_compute. discriminate.
Defined.

(** C7 (as stated) fails: the converter reports [wslpath: boom] on its
    error stream and exits 1, and the message does not contain that
    report. *)
Lemma run_wslpath_failure_drops_report :
  let completed := run_process broken_wsl_host [] ["wslpath"; "-u"; "C:/Unity/Unity.exe"] in
  returncode completed <> 0%Z
  /\ stderr completed = "wslpath: boom"
  /\ exists msg,
       fst (run_wslpath "-u" "C:/Unity/Unity.exe" broken_wsl_host [])
       = Raise (SystemExit msg)
       /\ Py.contains "C:/Unity/Unity.exe" msg = true
       /\ Py.contains (stderr completed) msg = false.
Proof.
  cbv zeta. split; [vm_compute; discriminate |]. split; [reflexivity |].
  eexists. split; [vm_compute; reflexivity |]. split; vm_compute; reflexivity.
Qed.

(** C8 (as amended). When the converter exits zero, [run_wslpath] returns
    its captured standard output with the whitespace removed at BOTH ends:
    the output is a blank prefix, the result, and a blank suffix, and the
    result neither starts nor ends with whitespace. *)
Theorem run_wslpath_success (arg value : string) (h : Host) (t : list Event) :
  returncode (run_process h t ["wslpath"; arg; value]) = 0%Z ->
  let out := stdout (run_process h t ["wslpath"; arg; value]) in
  run_wslpath arg value h t
  = (Ok (Py.strip out), t ++ [Spawn ["wslpath"; arg; value]])
  /\ exists l r,
       out = l +:+ Py.strip out +:+ r
       /\ blank l = true /\ blank r = true
       /\ (forall c, first_char (Py.strip out) = Some c -> Py.isspace c = false)
       /\ (forall c, last_char (Py.strip out) = Some c -> Py.isspace c = false).
Proof.
  intros Hrc out. rewrite run_wslpath_run. cbv zeta. rewrite Hrc. simpl.
  split; [reflexivity | apply strip_spec].
Qed.

Lemma run_wslpath_success_witness :
  run_wslpath "-u" "C:\x" wsl_host [] = (Ok "/mnt/c/x", [Spawn ["wslpath"; "-u"; "C:\x"]]).
Proof.
  apply (run_wslpath_success "-u" "C:\x" wsl_host []). reflexivity.
Defined.

(** C8 (as stated) fails: the converter prints a line that starts with a
    blank; the result has lost that blank, so it is not the output with
    only its trailing whitespace removed. *)
Lemma run_wslpath_success_drops_leading_blank :
  let completed := run_process wsl_host [] ["wslpath"; "-u"; "C:\x"] in
  returncode completed = 0%Z
  /\ stdout completed = " /mnt/c/x" +:+ newline
  /\ fst (run_wslpath "-u" "C:\x" wsl_host []) = Ok "/mnt/c/x"
  /\ ~ (exists r, stdout completed = "/mnt/c/x" +:+ r).
Proof.
  cbv zeta. split; [reflexivity |]. split; [reflexivity |]. split; [reflexivity |].
  intros [r Hr]. vm_compute in Hr. discriminate Hr.
Qed.

Lemma prefix_empty (s : string) : String.prefix EmptyString s = true.
Proof. now destruct s. Qed.

Lemma contains_char (c : ascii) (s : string) :
  Py.contains (String c EmptyString) s = true <-> In c (list_ascii_of_string s).
Proof.
  induction s as [|x s IH]; simpl.
  - split; [discriminate | tauto].
  - destruct (ascii_dec c x) as [->|Hne].
    + rewrite prefix_empty. simpl. tauto.
    + simpl. rewrite IH. split; [tauto |]. intros [Heq|Hin]; [congruence | exact Hin].
Qed.

(** What [looks_like_windows_path] recognises, character by character: any
    first character, then a colon, then a backslash or a slash; or a
    backslash anywhere. *)
Lemma looks_like_windows_path_spec (path : string) :
  looks_like_windows_path path = true
  <-> (exists c0 sep rest,
         path = String c0 (String ":"%char (String sep rest))
         /\ (sep = backslash \/ sep = "/"%char))
      \/ In backslash (list_ascii_of_string path).
Proof.
  unfold looks_like_windows_path. rewrite <- contains_char.
  destruct (Py.contains (String backslash EmptyString) path) eqn:Hc.
  - split; [tauto |]. intros _. now destruct (_ && _).
  - destruct path as [|c0 [|c1 [|c2 rest]]];
      try (simpl; split; [discriminate | intros [(? & ? & ? & [=] & _)|[=]]]).
    unfold Py.index. simpl.
    repeat case_bool_decide; simpl; split; try discriminate; try tauto.
    all: first
      [ intros _; left; exists c0, c2, rest;
        split; [congruence | first [left; congruence | right; congruence]]
      | intros [(a & b & r & Heq & Hsep)|Hf]; [| discriminate Hf];
        injection Heq as ? ? ? ?; subst; destruct Hsep; subst; congruence ].
Qed.

(** C3. Outside the compatibility layer [to_windows_path] returns every
    path unchanged and touches nothing; inside it, whatever the path looks
    like, it is one run of the converter in its to-windows mode. *)
Theorem to_windows_path_cases (path : string) (h : Host) (t : list Event) :
  (~ inside_wsl h -> to_windows_path path h t = (Ok path, t))
  /\ (inside_wsl h ->
      to_windows_path path h t = run_wslpath "-w" path h t
      /\ snd (to_windows_path path h t) = t ++ [Spawn ["wslpath"; "-w"; path]]).
Proof.
  rewrite to_windows_path_run. split; intros H.
  - now rewrite (bool_decide_eq_false_2 _ H).
  - rewrite (bool_decide_eq_true_2 _ H). split; [reflexivity |].
    now rewrite run_wslpath_run.
Qed.

Lemma to_windows_path_cases_witness :
  to_windows_path "relative/dir" linux_host [] = (Ok "relative/dir", [])
  /\ snd (to_windows_path "relative/dir" wsl_host [])
     = [Spawn ["wslpath"; "-w"; "relative/dir"]].
Proof.
  split.
  - apply (to_windows_path_cases "relative/dir" linux_host []). decide_wsl.
  - apply (to_windows_path_cases "relative/dir" wsl_host []). decide_wsl.
Defined.

(** C4 (as stated) fails: inside the compatibility layer the converter is
    run on [1:/x], which has no drive letter and no backslash. *)
Lemma to_unix_path_converts_without_drive_letter :
  inside_wsl wsl_host
  /\ spec_foreign_path "1:/x" = false
  /\ spawned (snd (to_unix_path "1:/x" wsl_host [])) = [["wslpath"; "-u"; "1:/x"]]
  /\ fst (to_unix_path "1:/x" wsl_host []) <> Ok "1:/x".
Proof.
  split; [decide_wsl |]. split; [reflexivity |]. split; [reflexivity |].
  vm_compute. discriminate.
Qed.

(** C4 (as amended). [to_unix_path] is one run of the converter in its
    to-unix mode exactly when the process is inside the compatibility
    layer and [looks_like_windows_path] holds of the path; otherwise it
    returns the path unchanged and touches nothing.  The path looks like a
    Windows path exactly when its second character is a colon and its
    third a backslash or a slash (whatever the first character is), or it
    contains a backslash. *)
Theorem to_unix_path_cases (path : string) (h : Host) (t : list Event) :
  (inside_wsl h /\ looks_like_windows_path path = true ->
   to_unix_path path h t = run_wslpath "-u" path h t
   /\ snd (to_unix_path path h t) = t ++ [Spawn ["wslpath"; "-u"; path]])
  /\ (~ (inside_wsl h /\ looks_like_windows_path path = true) ->
      to_unix_path path h t = (Ok path, t))
  /\ (looks_like_windows_path path = true
      <-> (exists c0 sep rest,
             path = String c0 (String ":"%char (String sep rest))
             /\ (sep = backslash \/ sep = "/"%char))
          \/ In backslash (list_ascii_of_string path)).
Proof.
  rewrite to_unix_path_run. split; [| split].
  - intros [H ->]. rewrite (bool_decide_eq_true_2 _ H). simpl.
    split; [reflexivity | now rewrite run_wslpath_run].
  - intros H. destruct (decide (inside_wsl h)) as [Hin|Hout].
    + rewrite (bool_decide_eq_true_2 _ Hin). simpl.
      destruct (looks_like_windows_path path); [tauto | reflexivity].
    + now rewrite (bool_decide_eq_false_2 _ Hout).
  - apply looks_like_windows_path_spec.
Qed.

Lemma to_unix_path_cases_witness :
  snd (to_unix_path "C:\Unity\Unity.exe" wsl_host [])
  = [Spawn ["wslpath"; "-u"; "C:\Unity\Unity.exe"]]
  /\ to_unix_path "/opt/unity/Unity" wsl_host [] = (Ok "/opt/unity/Unity", []).
Proof.
  split.
  - apply (to_unix_path_cases "C:\Unity\Unity.exe" wsl_host []).
    split; [decide_wsl | reflexivity].
  - apply (to_unix_path_cases "/opt/unity/Unity" wsl_host []).
    intros [_ H]. vm_compute in H. discriminate H.
Defined.

(** ** Executable resolver *)




(** With a non-empty path and no need to convert it, the resolver checks
    that the file exists unless the run is simulated. *)
Lemma resolve_unity_path_plain (c : ascii) (rest : string) (dry_run : bool)
    (h : Host) (t : list Event) :
  bool_decide (inside_wsl h) && looks_like_windows_path (String c rest) = false ->
  resolve_unity_path (Some (String c rest)) dry_run h t
  = if negb dry_run && negb (is_file h (String c rest))
    then (Raise (SystemExit ("Error: Unity editor not found at '"
                             +:+ String c rest +:+ "'.")), t)
    else (Ok (String c rest), t).
Proof.
  intros Hplain. unfold resolve_unity_path, bind, os_environ. simpl.
  rewrite to_unix_path_run, Hplain. unfold Path_is_file, ret.
  destruct dry_run; simpl; [reflexivity |].
  now destruct (is_file h (String c rest)).
Qed.

(** ** Invocation builder *)

(** C1 (as amended). Whenever [build_args] returns, the list is the ten
    leading flags and values, then the quit flag, then the filter pair if
    and only if the filter is a non-empty string: the quit flag follows
    every other fixed flag, and the filter pair, when there is one, comes
    right after it and ends the list.  Outside the compatibility layer
    [build_args] always returns, with the paths as given. *)
Theorem build_args_layout (project_path platform results_file log_file : string)
    (test_filter : option string) (h : Host) (t : list Event) :
  (forall args t',
     build_args project_path platform results_file log_file test_filter h t = (Ok args, t') ->
     exists p r l,
       args = [ "-batchmode"; "-projectPath"; p; "-runTests"; "-testPlatform"; platform;
                "-testResults"; r; "-logFile"; l; "-quit" ]
              ++ match test_filter with
                 | Some (String c rest) => ["-testFilter"; String c rest]
                 | _ => []
                 end
       /\ args !! 10%nat = Some "-quit"
       /\ (Py.truthy test_filter = true <-> exists v, drop 11 args = ["-testFilter"; v])
       /\ (Py.truthy test_filter = false <-> drop 11 args = []))
  /\ (~ inside_wsl h ->
      exists args,
        build_args project_path platform results_file log_file test_filter h t = (Ok args, t)
        /\ take 11 args
           = [ "-batchmode"; "-projectPath"; project_path; "-runTests"; "-testPlatform";
               platform; "-testResults"; results_file; "-logFile"; log_file; "-quit" ]).
Proof.
  split.
  - intros args t'. unfold build_args, bind.
    destruct (to_windows_path project_path h t) as [[p|e] t1]; [| discriminate].
    destruct (to_windows_path results_file h t1) as [[r|e] t2]; [| discriminate].
    destruct (to_windows_path log_file h t2) as [[l|e] t3]; [| discriminate].
    intros Hret. exists p, r, l.
    destruct test_filter as [[|c rest]|]; unfold ret in Hret;
      injection Hret as <- <-; simpl;
      (split; [reflexivity |]); (split; [reflexivity |]);
      (split; split; try discriminate; try reflexivity; eauto).
    all: intros [v [=]].
  - intros Hout. unfold build_args, bind.
    do 3 (rewrite to_windows_path_run, (bool_decide_eq_false_2 _ Hout); cbn iota beta).
    destruct test_filter as [[|c rest]|]; eexists; (split; [reflexivity |]); reflexivity.
Qed.

Lemma build_args_layout_witness :
  exists args,
    build_args "/work/proj" "EditMode" "out/r.xml" "out/l.log" (Some "MyTest") linux_host []
    = (Ok args, [])
    /\ take 11 args
       = [ "-batchmode"; "-projectPath"; "/work/proj"; "-runTests"; "-testPlatform";
           "EditMode"; "-testResults"; "out/r.xml"; "-logFile"; "out/l.log"; "-quit" ].
Proof.
  apply (build_args_layout "/work/proj" "EditMode" "out/r.xml" "out/l.log"
           (Some "MyTest") linux_host []).
  decide_wsl.
Defined.

(** C1 (as stated) fails twice.  With the filter [MyTest] the quit flag is
    at position 10 and the filter pair at positions 11 and 12, after it;
    and with the empty string supplied as filter there is no filter pair
    at all. *)
Lemma build_args_filter_follows_quit :
  (exists args,
     fst (build_args "/work/proj" "EditMode" "out/r.xml" "out/l.log" (Some "MyTest")
            linux_host []) = Ok args
     /\ args !! 10%nat = Some "-quit"
     /\ args !! 11%nat = Some "-testFilter"
     /\ args !! 12%nat = Some "MyTest")
  /\ (exists args,
        fst (build_args "/work/proj" "EditMode" "out/r.xml" "out/l.log" (Some EmptyString)
               linux_host []) = Ok args
        /\ ~ In "-testFilter" args).
Proof.
  split; eexists; (split; [vm_compute; reflexivity |]).
  - repeat split.
  - simpl. intros H. repeat (destruct H as [H|H]; [discriminate H |]). exact H.
Qed.

(** ** Reasoning about computations *)

Lemma bind_run {A B} (m : M A) (k : A -> M B) (h : Host) (t : list Event) :
  bind m k h t
  = match m h t with
    | (Ok a, t') => k a h t'
    | (Raise e, t') => (Raise e, t')
    end.
Proof. reflexivity. Qed.

Section Keeps.
Context {X : Type} (f : Event -> option X).

Lemma omap_snoc_None (t : list Event) (e : Event) :
  f e = None -> omap f (t ++ [e]) = omap f t.
Proof. intros He. rewrite omap_app. simpl. rewrite He. apply app_nil_r. Qed.

Lemma omap_snoc_Some (t : list Event) (e : Event) (x : X) :
  f e = Some x -> omap f (t ++ [e]) = omap f t ++ [x].
Proof. intros He. rewrite omap_app. simpl. now rewrite He. Qed.

Lemma keeps_ret {A} (a : A) : keeps f (ret a).
Proof. intros h t. reflexivity. Qed.

Lemma keeps_raise {A} (e : Exception) : keeps f (@raise A e).
Proof. intros h t. reflexivity. Qed.

Lemma keeps_bind {A B} (m : M A) (k : A -> M B) :
  keeps f m -> (forall a, keeps f (k a)) -> keeps f (bind m k).
Proof.
  intros Hm Hk h t. rewrite bind_run. specialize (Hm h t).
  destruct (m h t) as [[a|e] t1]; simpl in *; [rewrite Hk |]; exact Hm.
Qed.

Lemma keeps_bind_ret {A B} (a : A) (k : A -> M B) :
  keeps f (k a) -> keeps f (bind (ret a) k).
Proof. intros Hk h t. apply Hk. Qed.

Lemma keeps_os_environ : keeps f os_environ.
Proof. intros h t. reflexivity. Qed.

Lemma keeps_Path_is_file (p : string) : keeps f (Path_is_file p).
Proof. intros h t. reflexivity. Qed.

Lemma keeps_Path_resolve (p : string) : keeps f (Path_resolve p).
Proof. intros h t. reflexivity. Qed.

Lemma keeps_Path_div (d name : string) : keeps f (Path_div d name).
Proof. intros h t. reflexivity. Qed.

Lemma keeps_now_strftime : keeps f now_strftime.
Proof. intros h t. reflexivity. Qed.

Lemma keeps_subprocess_run (cmd : list string) :
  f (Spawn cmd) = None -> keeps f (subprocess_run cmd).
Proof. intros Hf h t. now apply omap_snoc_None. Qed.

Lemma keeps_print (line : string) : f (Print line) = None -> keeps f (print line).
Proof. intros Hf h t. now apply omap_snoc_None. Qed.

Lemma keeps_mkdir (dir : string) : f (Mkdir dir) = None -> keeps f (mkdir dir).
Proof. intros Hf h t. now apply omap_snoc_None. Qed.

End Keeps.

Lemma raises_only_ret {A} (P : Exception -> Prop) (a : A) : raises_only P (ret a).
Proof. intros h t e t' [=]. Qed.

Lemma raises_only_raise {A} (P : Exception -> Prop) (e : Exception) :
  P e -> raises_only P (@raise A e).
Proof. intros He h t e' t' [= <- _]. exact He. Qed.

Lemma raises_only_bind {A B} (P : Exception -> Prop) (m : M A) (k : A -> M B) :
  raises_only P m -> (forall a, raises_only P (k a)) -> raises_only P (bind m k).
Proof.
  intros Hm Hk h t e t'. rewrite bind_run.
  destruct (m h t) as [[a|e1] t1] eqn:E.
  - apply Hk.
  - intros [= <- _]. exact (Hm _ _ _ _ E).
Qed.

Lemma raises_only_bind_ret {A B} (P : Exception -> Prop) (a : A) (k : A -> M B) :
  raises_only P (k a) -> raises_only P (bind (ret a) k).
Proof. intros Hk h t. apply Hk. Qed.

Lemma raises_only_weaken {A} (P Q : Exception -> Prop) (m : M A) :
  (forall e, P e -> Q e) -> raises_only P m -> raises_only Q m.
Proof. intros HPQ Hm h t e t' E. exact (HPQ _ (Hm _ _ _ _ E)). Qed.

Lemma never_raises_os_environ (P : Exception -> Prop) : raises_only P os_environ.
Proof. intros h t e t' [=]. Qed.

Lemma never_raises_subprocess_run (P : Exception -> Prop) (cmd : list string) :
  raises_only P (subprocess_run cmd).
Proof. intros h t e t' [=]. Qed.

Lemma never_raises_print (P : Exception -> Prop) (line : string) :
  raises_only P (print line).
Proof. intros h t e t' [=]. Qed.

Lemma never_raises_mkdir (P : Exception -> Prop) (dir : string) :
  raises_only P (mkdir dir).
Proof. intros h t e t' [=]. Qed.

Lemma never_raises_Path_is_file (P : Exception -> Prop) (p : string) :
  raises_only P (Path_is_file p).
Proof. intros h t e t' [=]. Qed.

Lemma never_raises_Path_resolve (P : Exception -> Prop) (p : string) :
  raises_only P (Path_resolve p).
Proof. intros h t e t' [=]. Qed.

Lemma never_raises_Path_div (P : Exception -> Prop) (d name : string) :
  raises_only P (Path_div d name).
Proof. intros h t e t' [=]. Qed.

Lemma never_raises_now_strftime (P : Exception -> Prop) : raises_only P now_strftime.
Proof. intros h t e t' [=]. Qed.

Lemma ignores_files_ret {A} (a : A) : ignores_files (ret a).
Proof. intros present h t. reflexivity. Qed.

Lemma ignores_files_raise {A} (e : Exception) : ignores_files (@raise A e).
Proof. intros present h t. reflexivity. Qed.

Lemma ignores_files_bind {A B} (m : M A) (k : A -> M B) :
  ignores_files m -> (forall a, ignores_files (k a)) -> ignores_files (bind m k).
Proof.
  intros Hm Hk present h t. rewrite !bind_run, Hm.
  destruct (m h t) as [[a|e] t1]; [apply Hk | reflexivity].
Qed.

Lemma ignores_files_bind_ret {A B} (a : A) (k : A -> M B) :
  ignores_files (k a) -> ignores_files (bind (ret a) k).
Proof. intros Hk present h t. apply Hk. Qed.

Lemma ignores_files_os_environ : ignores_files os_environ.
Proof. intros present h t. reflexivity. Qed.

Lemma ignores_files_subprocess_run (cmd : list string) : ignores_files (subprocess_run cmd).
Proof. intros present h t. reflexivity. Qed.

Lemma ignores_files_print (line : string) : ignores_files (print line).
Proof. intros present h t. reflexivity. Qed.

Lemma ignores_files_mkdir (dir : string) : ignores_files (mkdir dir).
Proof. intros present h t. reflexivity. Qed.

Lemma ignores_files_Path_resolve (p : string) : ignores_files (Path_resolve p).
Proof. intros present h t. reflexivity. Qed.

Lemma ignores_files_Path_div (d name : string) : ignores_files (Path_div d name).
Proof. intros present h t. reflexivity. Qed.

Lemma ignores_files_now_strftime : ignores_files now_strftime.
Proof. intros present h t. reflexivity. Qed.

Create HintDb effects.

#[local] Hint Resolve ignores_files_ret ignores_files_raise ignores_files_os_environ
  ignores_files_subprocess_run ignores_files_print ignores_files_mkdir
  ignores_files_Path_resolve ignores_files_Path_div ignores_files_now_strftime : effects.

#[local] Hint Resolve keeps_ret keeps_raise keeps_os_environ keeps_Path_is_file
  keeps_Path_resolve keeps_Path_div keeps_now_strftime : effects.
#[local] Hint Resolve raises_only_ret never_raises_os_environ never_raises_subprocess_run
  never_raises_print never_raises_mkdir never_raises_Path_is_file
  never_raises_Path_resolve never_raises_Path_div never_raises_now_strftime : effects.

(** Walks through the binds and branches of a computation, leaving the
    goals about its primitive steps. *)
Ltac effects_step :=
  match goal with
  | |- keeps _ (bind (ret _) _) => apply keeps_bind_ret; cbv beta
  | |- raises_only _ (bind (ret _) _) => apply raises_only_bind_ret; cbv beta
  | |- ignores_files (bind (ret _) _) => apply ignores_files_bind_ret; cbv beta
  | |- keeps _ (bind _ _) => apply keeps_bind; [| intros ?]
  | |- raises_only _ (bind _ _) => apply raises_only_bind; [| intros ?]
  | |- ignores_files (bind _ _) => apply ignores_files_bind; [| intros ?]
  | |- ignores_files (if ?b then _ else _) => destruct b
  | |- ignores_files (match ?x with _ => _ end) => destruct x
  | |- keeps _ (if ?b then _ else _) => destruct b
  | |- raises_only _ (if ?b then _ else _) => destruct b eqn:?
  | |- keeps _ (match ?x with _ => _ end) => destruct x
  | |- raises_only _ (match ?x with _ => _ end) => destruct x
  | |- keeps _ (subprocess_run _) => apply keeps_subprocess_run
  | |- keeps _ (print _) => apply keeps_print
  | |- keeps _ (mkdir _) => apply keeps_mkdir
  | |- raises_only _ (raise _) => apply raises_only_raise
  | |- _ => solve [auto with effects]
  end.

Ltac effects := repeat effects_step.

(** Observers that do not see the converter. *)
Section Converter_unseen.
Context {X : Type} (f : Event -> option X).
Hypothesis converter_unseen : forall arg value, f (Spawn ["wslpath"; arg; value]) = None.

Lemma keeps_is_wsl : keeps f is_wsl.
Proof. unfold is_wsl. effects. Qed.

Lemma keeps_run_wslpath (arg value : string) : keeps f (run_wslpath arg value).
Proof. unfold run_wslpath. effects. Qed.

Lemma keeps_to_unix_path (path : string) : keeps f (to_unix_path path).
Proof.
  unfold to_unix_path. pose proof keeps_is_wsl. pose proof keeps_run_wslpath. effects.
Qed.

Lemma keeps_to_windows_path (path : string) : keeps f (to_windows_path path).
Proof.
  unfold to_windows_path. pose proof keeps_is_wsl. pose proof keeps_run_wslpath. effects.
Qed.

Lemma keeps_resolve_unity_path (cli_unity : option string) (dry_run : bool) :
  keeps f (resolve_unity_path cli_unity dry_run).
Proof. unfold resolve_unity_path. pose proof keeps_to_unix_path. effects. Qed.

Lemma keeps_build_args (project_path platform results_file log_file : string)
    (test_filter : option string) :
  keeps f (build_args project_path platform results_file log_file test_filter).
Proof. unfold build_args. pose proof keeps_to_windows_path. effects. Qed.

End Converter_unseen.

Lemma launch_of_converter (arg value : string) :
  launch_of (Spawn ["wslpath"; arg; value]) = None.
Proof. reflexivity. Qed.

Lemma print_of_converter (arg value : string) :
  print_of (Spawn ["wslpath"; arg; value]) = None.
Proof. reflexivity. Qed.

Lemma ignores_files_is_wsl : ignores_files is_wsl.
Proof. unfold is_wsl. effects. Qed.

Lemma ignores_files_run_wslpath (arg value : string) : ignores_files (run_wslpath arg value).
Proof. unfold run_wslpath. effects. Qed.

Lemma ignores_files_to_unix_path (path : string) : ignores_files (to_unix_path path).
Proof.
  unfold to_unix_path.
  pose proof ignores_files_is_wsl. pose proof ignores_files_run_wslpath. effects.
Qed.

Lemma ignores_files_to_windows_path (path : string) : ignores_files (to_windows_path path).
Proof.
  unfold to_windows_path.
  pose proof ignores_files_is_wsl. pose proof ignores_files_run_wslpath. effects.
Qed.

Lemma ignores_files_build_args (project_path platform results_file log_file : string)
    (test_filter : option string) :
  ignores_files (build_args project_path platform results_file log_file test_filter).
Proof. unfold build_args. pose proof ignores_files_to_windows_path. effects. Qed.

Lemma ignores_files_run_one (unity project_path platform results_file log_file : string)
    (test_filter : option string) (dry_run : bool) :
  ignores_files
    (run_one unity project_path platform results_file log_file test_filter dry_run).
Proof. unfold run_one. pose proof ignores_files_build_args. effects. Qed.

(** ** What each step can raise *)

Lemma raises_run_wslpath (arg value : string) :
  raises_only PathConversionError (run_wslpath arg value).
Proof. unfold run_wslpath. effects. now exists value. Qed.

Lemma raises_is_wsl (P : Exception -> Prop) : raises_only P is_wsl.
Proof. unfold is_wsl. effects. Qed.

Lemma raises_to_unix_path (path : string) :
  raises_only PathConversionError (to_unix_path path).
Proof.
  unfold to_unix_path.
  pose proof (raises_is_wsl PathConversionError). pose proof raises_run_wslpath. effects.
Qed.

Lemma raises_to_windows_path (path : string) :
  raises_only PathConversionError (to_windows_path path).
Proof.
  unfold to_windows_path.
  pose proof (raises_is_wsl PathConversionError). pose proof raises_run_wslpath. effects.
Qed.

Lemma raises_build_args (project_path platform results_file log_file : string)
    (test_filter : option string) :
  raises_only PathConversionError
    (build_args project_path platform results_file log_file test_filter).
Proof. unfold build_args. pose proof raises_to_windows_path. effects. Qed.

Lemma raises_resolve_unity_path (cli_unity : option string) (dry_run : bool) :
  raises_only (may_raise dry_run) (resolve_unity_path cli_unity dry_run).
Proof.
  unfold resolve_unity_path.
  assert (Hu : forall p, raises_only (may_raise dry_run) (to_unix_path p)).
  { intros p. apply (raises_only_weaken PathConversionError); [| apply raises_to_unix_path].
    intros e He. right. now left. }
  assert (Hreq : may_raise dry_run unity_path_required) by (left; now left).
  destruct dry_run; simpl; effects; try exact Hreq.
  right. right. split; [reflexivity |]. left. eexists. reflexivity.
Qed.

Lemma raises_run_one (unity project_path platform results_file log_file : string)
    (test_filter : option string) (dry_run : bool) :
  raises_only (may_raise dry_run)
    (run_one unity project_path platform results_file log_file test_filter dry_run).
Proof.
  unfold run_one.
  assert (Hb : raises_only (may_raise dry_run)
                 (build_args project_path platform results_file log_file test_filter)).
  { apply (raises_only_weaken PathConversionError); [| apply raises_build_args].
    intros e He. right. now left. }
  effects.
  right. right. split; [reflexivity |]. right.
  match goal with H : negb (returncode ?c =? 0)%Z = true |- _ =>
    exists (returncode c); split; [| reflexivity];
    intros H0; rewrite H0 in H; discriminate H
  end.
Qed.

Lemma raises_main (args : Namespace.t) :
  raises_only (may_raise (Namespace.dry_run args)) (main args).
Proof.
  destruct args as [command platform filter unity project_path results_dir logs_dir dry_run].
  unfold main. simpl.
  pose proof (raises_resolve_unity_path unity dry_run).
  pose proof (fun u p pl r l f => raises_run_one u p pl r l f dry_run).
  destruct command; effects.
  all: try match goal with H : _ && _ = true |- _ => simpl in H; discriminate H end.
  all: left; unfold ConfigurationError;
    first [ now (right; left)
          | right; right; first [ now exists single | now exists suite ] ].
Qed.

(** The kinds of error are told apart by their messages. *)
Lemma not_found_not_configuration (e : Exception) :
  ExecutableNotFoundError e -> ~ ConfigurationError e.
Proof.
  intros [u ->] [H | [H | [c H]]]; try destruct c; simpl in H; discriminate H.
Qed.

Lemma not_found_not_conversion (e : Exception) :
  ExecutableNotFoundError e -> ~ PathConversionError e.
Proof. intros [u ->] [v H]. simpl in H. discriminate H. Qed.

Lemma runner_failed_not_configuration (e : Exception) :
  RunnerFailedError e -> ~ ConfigurationError e.
Proof.
  intros (code & _ & ->) [H | [H | [c H]]]; try destruct c; simpl in H; discriminate H.
Qed.

(** ** Command sequencer: the checks before anything is done *)

(** C5. In single mode without a filter, and in single or suite mode
    without a platform, [main] raises a configuration error with an empty
    trace: no process has been spawned, neither converter nor runner. *)
Theorem main_missing_input (args : Namespace.t) (h : Host) :
  (Namespace.command args = single /\ Namespace.filter args = None)
  \/ ((Namespace.command args = single \/ Namespace.command args = suite)
      /\ Namespace.platform args = None) ->
  exists e,
    run_main args h = (Raise e, [])
    /\ ConfigurationError e
    /\ spawned (snd (run_main args h)) = [].
Proof.
  destruct args as [command platform filter unity project_path results_dir logs_dir dry_run].
  simpl. unfold run_main, main, ConfigurationError. simpl.
  intros [[-> ->] | [[-> | ->] ->]].
  - destruct platform; simpl; eexists; (split; [reflexivity |]); split; try reflexivity.
    + right. now left.
    + right. right. now exists single.
  - simpl. eexists. split; [reflexivity |]. split; [| reflexivity].
    right. right. now exists single.
  - simpl. eexists. split; [reflexivity |]. split; [| reflexivity].
    right. right. now exists suite.
Qed.

Lemma main_missing_input_witness :
  exists e,
    run_main single_args_no_filter wsl_host = (Raise e, [])
    /\ ConfigurationError e
    /\ spawned (snd (run_main single_args_no_filter wsl_host)) = [].
Proof.
  apply (main_missing_input single_args_no_filter wsl_host).
  left. split; reflexivity.
Defined.

(** ** Run executor *)

(** [run_one], step by step, from what [build_args] gives. *)
Lemma run_one_run (unity project_path platform results_file log_file : string)
    (test_filter : option string) (dry_run : bool) (h : Host) (t : list Event) :
  run_one unity project_path platform results_file log_file test_filter dry_run h t
  = match build_args project_path platform results_file log_file test_filter h t with
    | (Raise e, t1) => (Raise e, t1)
    | (Ok args, t1) =>
        let t2 := t1 ++ map Print (progress platform results_file log_file) in
        if dry_run
        then (Ok tt, t2 ++ [Print (echo (unity :: args))])
        else
          let code := returncode (run_process h t2 (unity :: args)) in
          (if (code =? 0)%Z then Ok tt else Raise (runner_failed code),
           t2 ++ [Spawn (unity :: args)])
    end.
Proof.
  unfold run_one. rewrite bind_run.
  destruct (build_args _ _ _ _ _ h t) as [[args|e] t1]; [| reflexivity].
  unfold bind, print, subprocess_run, progress, echo, ret, raise, runner_failed.
  cbv zeta. simpl map.
  replace (((t1 ++ [Print ("[validate] platform=" +:+ platform)])
              ++ [Print ("[validate] results=" +:+ results_file)])
             ++ [Print ("[validate] log=" +:+ log_file)])
    with (t1 ++ [Print ("[validate] platform=" +:+ platform);
                 Print ("[validate] results=" +:+ results_file);
                 Print ("[validate] log=" +:+ log_file)])
    by (now rewrite <- !app_assoc).
  destruct dry_run; [reflexivity |]. simpl.
  now destruct (returncode _ =? 0)%Z.
Qed.

Lemma keeps_launched_run_one_dry (unity project_path platform results_file log_file : string)
    (test_filter : option string) :
  keeps launch_of
    (run_one unity project_path platform results_file log_file test_filter true).
Proof.
  unfold run_one. pose proof (keeps_build_args launch_of launch_of_converter). effects.
Qed.

Lemma keeps_launched_main_dry (args : Namespace.t) :
  Namespace.dry_run args = true -> keeps launch_of (main args).
Proof.
  destruct args as [command platform filter unity project_path results_dir logs_dir dry_run].
  simpl. intros ->. unfold main. simpl.
  pose proof (keeps_resolve_unity_path launch_of launch_of_converter).
  pose proof keeps_launched_run_one_dry.
  destruct command; effects.
Qed.

(** ** Dry run *)

Lemma ignores_files_resolve_unity_path_dry (cli_unity : option string) :
  ignores_files (resolve_unity_path cli_unity true).
Proof.
  unfold resolve_unity_path. simpl. pose proof ignores_files_to_unix_path. effects.
Qed.

Lemma ignores_files_main_dry (args : Namespace.t) :
  Namespace.dry_run args = true -> ignores_files (main args).
Proof.
  destruct args as [command platform filter unity project_path results_dir logs_dir dry_run].
  simpl. intros ->. unfold main. simpl.
  pose proof ignores_files_resolve_unity_path_dry.
  pose proof ignores_files_run_one.
  destruct command; effects.
Qed.

(** C6. In a dry run, in every mode, no runner process is launched, the
    failure is never that the executable is missing (the only possible
    failures are configuration and path-conversion errors), and whether
    any file exists on disk has no influence on what the program does. *)
Theorem main_dry_run (args : Namespace.t) (h : Host) :
  Namespace.dry_run args = true ->
  launched (snd (run_main args h)) = []
  /\ (forall e, fst (run_main args h) = Raise e ->
        ~ ExecutableNotFoundError e
        /\ (ConfigurationError e \/ PathConversionError e))
  /\ (forall present, run_main args (with_is_file present h) = run_main args h).
Proof.
  intros Hdry. split; [| split].
  - unfold run_main, launched. now rewrite (keeps_launched_main_dry args Hdry h []).
  - intros e He. unfold run_main in He.
    destruct (main args h []) as [r t] eqn:E. simpl in He. subst r.
    pose proof (raises_main args h [] e t E) as Hmay. rewrite Hdry in Hmay.
    destruct Hmay as [Hc | [Hp | [[=] _]]].
    + split; [| now left]. intros Hnf. exact (not_found_not_configuration e Hnf Hc).
    + split; [| now right]. intros Hnf. exact (not_found_not_conversion e Hnf Hp).
  - intros present. apply (ignores_files_main_dry args Hdry).
Qed.

Lemma main_dry_run_witness :
  launched (snd (run_main dry_args (with_is_file (fun _ => false) linux_host))) = [].
Proof.
  apply (main_dry_run dry_args (with_is_file (fun _ => false) linux_host)). reflexivity.
Defined.

(** ** The command lines that are launched *)

Lemma build_args_shape (project_path platform results_file log_file : string)
    (test_filter : option string) (h : Host) (t t' : list Event) (args : list string) :
  build_args project_path platform results_file log_file test_filter h t = (Ok args, t') ->
  exists p r l, args = invocation p platform r l ++ filter_pair test_filter.
Proof.
  unfold build_args. rewrite !bind_run.
  destruct (to_windows_path project_path h t) as [[p|e] t1]; [| discriminate].
  rewrite bind_run.
  destruct (to_windows_path results_file h t1) as [[r|e] t2]; [| discriminate].
  rewrite bind_run.
  destruct (to_windows_path log_file h t2) as [[l|e] t3]; [| discriminate].
  intros Hret. exists p, r, l.
  destruct test_filter as [[|c rest]|]; injection Hret as <- _; reflexivity.
Qed.

Lemma runner_command_not_converter (unity : string) (p platform r l : string)
    (test_filter : option string) :
  is_converter_call (unity :: invocation p platform r l ++ filter_pair test_filter) = false.
Proof. reflexivity. Qed.






(** ** Filters outside single mode *)



(** ** Runs when the converter works *)

Section Converter_succeeds.
Variable h : Host.
Hypothesis converter_ok :
  forall t arg value, returncode (run_process h t ["wslpath"; arg; value]) = 0%Z.

Lemma to_windows_path_total (path : string) (t : list Event) :
  exists q t1,
    to_windows_path path h t = (Ok q, t1)
    /\ launched t1 = launched t /\ printed t1 = printed t
    /\ (~ inside_wsl h -> q = path).
Proof.
  pose proof (keeps_to_windows_path launch_of launch_of_converter path h t) as Hl.
  pose proof (keeps_to_windows_path print_of print_of_converter path h t) as Hp.
  rewrite to_windows_path_run in *.
  destruct (decide (inside_wsl h)) as [Hin|Hout].
  - rewrite (bool_decide_eq_true_2 _ Hin) in *. rewrite run_wslpath_run in *.
    cbv zeta in *. rewrite converter_ok in *. simpl in *.
    eexists _, _. split; [reflexivity |]. repeat split; try assumption. tauto.
  - rewrite (bool_decide_eq_false_2 _ Hout) in *.
    exists path, t. repeat split.
Qed.

Lemma build_args_total (project_path platform results_file log_file : string)
    (test_filter : option string) (t : list Event) :
  exists p r l t1,
    build_args project_path platform results_file log_file test_filter h t
    = (Ok (invocation p platform r l ++ filter_pair test_filter), t1)
    /\ launched t1 = launched t /\ printed t1 = printed t
    /\ (~ inside_wsl h -> p = project_path /\ r = results_file /\ l = log_file).
Proof.
  unfold build_args. rewrite bind_run.
  destruct (to_windows_path_total project_path t) as (p & t1 & -> & Hl1 & Hp1 & Hq1).
  rewrite bind_run.
  destruct (to_windows_path_total results_file t1) as (r & t2 & -> & Hl2 & Hp2 & Hq2).
  rewrite bind_run.
  destruct (to_windows_path_total log_file t2) as (l & t3 & -> & Hl3 & Hp3 & Hq3).
  exists p, r, l, t3. split; [| split; [congruence | split; [congruence | tauto]]].
  now destruct test_filter as [[|c rest]|].
Qed.

(** One run: the paths are converted, the progress lines are printed,
    and the command is echoed or launched. *)
Lemma run_one_total (unity project_path platform results_file log_file : string)
    (test_filter : option string) (dry_run : bool) (t : list Event) :
  exists p r l t2,
    let cmd := unity :: invocation p platform r l ++ filter_pair test_filter in
    let code := returncode (run_process h t2 cmd) in
    run_one unity project_path platform results_file log_file test_filter dry_run h t
    = (if dry_run then (Ok tt, t2 ++ [Print (echo cmd)])
       else (if (code =? 0)%Z then Ok tt else Raise (runner_failed code),
             t2 ++ [Spawn cmd]))
    /\ launched t2 = launched t
    /\ printed t2 = printed t ++ progress platform results_file log_file
    /\ (~ inside_wsl h -> p = project_path /\ r = results_file /\ l = log_file).
Proof.
  rewrite run_one_run.
  destruct (build_args_total project_path platform results_file log_file test_filter t)
    as (p & r & l & t1 & -> & Hl & Hp & Hq).
  exists p, r, l, (t1 ++ map Print (progress platform results_file log_file)).
  cbv zeta. split; [reflexivity |]. split; [| split; [| exact Hq]].
  - unfold launched in *. rewrite omap_app, Hl. simpl. apply app_nil_r.
  - unfold printed in *. rewrite omap_app, Hp. reflexivity.
Qed.

End Converter_succeeds.

(** ** Full mode *)

(** C2. In full mode, once the executable is resolved and the converter
    works, there are exactly two runs, EditMode then PlayMode, whose
    result and log files are [EditMode-suite-<stamp>] and
    [PlayMode-suite-<stamp>] for one and the same stamp.  When every
    runner invocation exits with code zero the program ends normally after
    both runs; the trace shows the progress lines of the two runs in that
    order and (unless the run is simulated) the two launches in that order.
    When the first launch exits non-zero the program fails with that
    code, and the trace shows the first run only: the second run is never
    announced nor launched. *)
Theorem full_mode_sequence (args : Namespace.t) (h : Host) (unity : string)
    (t0 : list Event) :
  Namespace.command args = full ->
  resolve_unity_path (Namespace.unity args) (Namespace.dry_run args) h [] = (Ok unity, t0) ->
  (forall t arg value, returncode (run_process h t ["wslpath"; arg; value]) = 0%Z) ->
  let dry_run := Namespace.dry_run args in
  let project := path_resolve h (Namespace.project_path args) in
  let stamp := clock h in
  let results1 := path_join h (Namespace.results_dir args) ("EditMode-suite-" +:+ stamp +:+ ".xml") in
  let log1 := path_join h (Namespace.logs_dir args) ("EditMode-suite-" +:+ stamp +:+ ".log") in
  let results2 := path_join h (Namespace.results_dir args) ("PlayMode-suite-" +:+ stamp +:+ ".xml") in
  let log2 := path_join h (Namespace.logs_dir args) ("PlayMode-suite-" +:+ stamp +:+ ".log") in
  exists p1 r1 l1 p2 r2 l2,
    let edit := unity :: invocation p1 "EditMode" r1 l1 in
    let play := unity :: invocation p2 "PlayMode" r2 l2 in
    (~ inside_wsl h ->
     p1 = project /\ r1 = results1 /\ l1 = log1
     /\ p2 = project /\ r2 = results2 /\ l2 = log2)
    /\ ((forall t cmd, is_converter_call cmd = false ->
           returncode (run_process h t cmd) = 0%Z) ->
        exists t,
          run_main args h = (Ok tt, t)
          /\ launched t = (if dry_run then [] else [edit; play])
          /\ printed t
             = progress "EditMode" results1 log1 ++ (if dry_run then [echo edit] else [])
               ++ progress "PlayMode" results2 log2 ++ (if dry_run then [echo play] else [])
               ++ ["[validate] done"])
    /\ (dry_run = false ->
        (forall t cmd, is_converter_call cmd = false -> launched t = [] ->
           returncode (run_process h t cmd) <> 0%Z) ->
        exists code t,
          run_main args h = (Raise (runner_failed code), t)
          /\ RunnerFailedError (runner_failed code)
          /\ launched t = [edit]
          /\ printed t = progress "EditMode" results1 log1).
Proof.
  destruct args as [command platform filter cli_unity project_path results_dir logs_dir dry].
  cbn [Namespace.command Namespace.unity Namespace.dry_run Namespace.project_path
       Namespace.results_dir Namespace.logs_dir].
  intros -> Hres Hconv.
  set (project := path_resolve h project_path).
  set (results1 := path_join h results_dir ("EditMode-suite-" +:+ clock h +:+ ".xml")).
  set (log1 := path_join h logs_dir ("EditMode-suite-" +:+ clock h +:+ ".log")).
  set (results2 := path_join h results_dir ("PlayMode-suite-" +:+ clock h +:+ ".xml")).
  set (log2 := path_join h logs_dir ("PlayMode-suite-" +:+ clock h +:+ ".log")).
  pose proof (keeps_resolve_unity_path launch_of launch_of_converter cli_unity dry h []) as Hl0.
  pose proof (keeps_resolve_unity_path print_of print_of_converter cli_unity dry h []) as Hp0.
  rewrite Hres in Hl0, Hp0. cbn [snd omap] in Hl0, Hp0.
  set (t1 := (t0 ++ [Mkdir results_dir]) ++ [Mkdir logs_dir]).
  assert (Hl1 : launched t1 = []).
  { unfold t1, launched. rewrite !omap_app, Hl0. reflexivity. }
  assert (Hp1 : printed t1 = []).
  { unfold t1, printed. rewrite !omap_app, Hp0. reflexivity. }
  destruct (run_one_total h Hconv unity project "EditMode" results1 log1 None dry t1)
    as (p1 & r1 & l1 & ta & Hrun1 & Hla & Hpa & Hqa).
  cbv zeta in Hrun1. rewrite app_nil_r in Hrun1.
  set (edit := unity :: invocation p1 "EditMode" r1 l1) in *.
  set (tb := if dry then ta ++ [Print (echo edit)] else ta ++ [Spawn edit]).
  destruct (run_one_total h Hconv unity project "PlayMode" results2 log2 None dry tb)
    as (p2 & r2 & l2 & tc & Hrun2 & Hlc & Hpc & Hqc).
  cbv zeta in Hrun2. rewrite app_nil_r in Hrun2.
  set (play := unity :: invocation p2 "PlayMode" r2 l2) in *.
  exists p1, r1, l1, p2, r2, l2. cbv zeta. fold edit play.
  assert (Hmain : run_main
     {| Namespace.command := full; Namespace.platform := platform;
        Namespace.filter := filter; Namespace.unity := cli_unity;
        Namespace.project_path := project_path; Namespace.results_dir := results_dir;
        Namespace.logs_dir := logs_dir; Namespace.dry_run := dry |} h
     = match run_one unity project "EditMode" results1 log1 None dry h t1 with
       | (Ok _, t2) =>
           match run_one unity project "PlayMode" results2 log2 None dry h t2 with
           | (Ok _, t3) => (Ok tt, t3 ++ [Print "[validate] done"])
           | (Raise e, t3) => (Raise e, t3)
           end
       | (Raise e, t2) => (Raise e, t2)
       end).
  { unfold run_main, main.
    cbn [Namespace.command Namespace.unity Namespace.dry_run Namespace.project_path
         Namespace.results_dir Namespace.logs_dir andb].
    rewrite bind_run, Hres.
    unfold bind, Path_resolve, mkdir, now_strftime, Path_div, print.
    fold project results1 log1 results2 log2 t1.
    destruct (run_one unity project "EditMode" results1 log1 None dry h t1)
      as [[[]|e1] t2]; [| reflexivity].
    now destruct (run_one unity project "PlayMode" results2 log2 None dry h t2)
      as [[[]|e2] t3]. }
  rewrite Hmain, Hrun1. clear Hmain.
  assert (Hlb : launched tb = if dry then [] else [edit]).
  { unfold tb, launched in *. destruct dry; rewrite omap_app, Hla, Hl1; reflexivity. }
  assert (Hpb : printed tb
                = progress "EditMode" results1 log1 ++ (if dry then [echo edit] else [])).
  { unfold tb, printed in *.
    destruct dry; rewrite omap_app, Hpa, Hp1; [reflexivity | apply app_nil_r]. }
  split; [tauto |]. split.
  - intros Hzero. destruct dry.
    + fold tb. rewrite Hrun2. eexists. split; [reflexivity |]. split.
      * unfold launched in *. rewrite !omap_app, Hlc, Hlb. reflexivity.
      * unfold printed in *. rewrite !omap_app, Hpc, Hpb. reflexivity.
    + rewrite (Hzero ta edit eq_refl). cbn [Z.eqb]. fold tb. rewrite Hrun2.
      rewrite (Hzero tc play eq_refl). cbn [Z.eqb].
      eexists. split; [reflexivity |]. split.
      * unfold launched in *. rewrite !omap_app, Hlc, Hlb. reflexivity.
      * unfold printed in *. rewrite !omap_app, Hpc, Hpb. reflexivity.
  - intros -> Hfail.
    assert (Hcode : returncode (run_process h ta edit) <> 0%Z).
    { apply Hfail; [reflexivity | congruence]. }
    apply Z.eqb_neq in Hcode as Hcode'. rewrite Hcode'.
    exists (returncode (run_process h ta edit)), (ta ++ [Spawn edit]).
    split; [reflexivity |]. split; [now eexists |]. split.
    + exact Hlb.
    + rewrite <- (app_nil_r (progress _ _ _)). unfold printed in *.
      rewrite omap_app, Hpa, Hp1. reflexivity.
Qed.

Lemma full_mode_sequence_witness :
  (exists t, run_main full_args linux_host = (Ok tt, t) /\ length (launched t) = 2%nat)
  /\ (exists code t,
        run_main full_args flaky_host = (Raise (runner_failed code), t)
        /\ length (launched t) = 1%nat).
Proof.
  split.
  - destruct (full_mode_sequence full_args linux_host "/opt/unity/Editor/Unity" [])
      as (p1 & r1 & l1 & p2 & r2 & l2 & _ & Hpass & _).
    + reflexivity.
    + vm_compute. reflexivity.
    + intros t arg value. reflexivity.
    + destruct Hpass as (t & Hrun & Hl & _); [intros t cmd _; reflexivity |].
      exists t. split; [exact Hrun | now rewrite Hl].
  - destruct (full_mode_sequence full_args flaky_host "/opt/unity/Editor/Unity" [])
      as (p1 & r1 & l1 & p2 & r2 & l2 & _ & _ & Hfail).
    + reflexivity.
    + vm_compute. reflexivity.
    + intros t arg value. reflexivity.
    + destruct Hfail as (code & t & Hrun & _ & Hl & _); [reflexivity | |].
      * intros t cmd Hcmd Hnone. cbn [flaky_host run_process].
        rewrite Hcmd, Hnone. discriminate.
      * exists code, t. split; [exact Hrun | now rewrite Hl].
Defined.

(** * Further properties of the script *)

(** ** What a computation adds to the trace *)

Lemma emits_ret {A} (E : Event -> Prop) (a : A) : emits E (ret a).
Proof. intros h t. exists []. split; [symmetry; apply app_nil_r | constructor]. Qed.

Lemma emits_raise {A} (E : Event -> Prop) (e : Exception) : emits E (@raise A e).
Proof. intros h t. exists []. split; [symmetry; apply app_nil_r | constructor]. Qed.

Lemma emits_bind {A B} (E : Event -> Prop) (m : M A) (k : A -> M B) :
  emits E m -> (forall a, emits E (k a)) -> emits E (bind m k).
Proof.
  intros Hm Hk h t. rewrite bind_run.
  destruct (Hm h t) as [b1 [E1 F1]].
  destruct (m h t) as [[a|e] t1]; simpl in E1; subst t1.
  - destruct (Hk a h (t ++ b1)) as [b2 [E2 F2]]. exists (b1 ++ b2). split.
    + now rewrite E2, app_assoc.
    + now apply Forall_app.
  - exists b1. now split.
Qed.

Lemma emits_bind_ret {A B} (E : Event -> Prop) (a : A) (k : A -> M B) :
  emits E (k a) -> emits E (bind (ret a) k).
Proof. intros Hk h t. apply Hk. Qed.

Lemma emits_weaken {A} (E F : Event -> Prop) (m : M A) :
  (forall e, E e -> F e) -> emits E m -> emits F m.
Proof.
  intros HEF Hm h t. destruct (Hm h t) as [b [Hb Fb]]. exists b. split; [exact Hb |].
  eapply Forall_impl; [exact Fb | exact HEF].
Qed.

Lemma emits_pure {A} (E : Event -> Prop) (m : M A) :
  (forall h t, snd (m h t) = t) -> emits E m.
Proof.
  intros Hm h t. exists []. split; [now rewrite Hm, app_nil_r | constructor].
Qed.

Lemma emits_one {A} (E : Event -> Prop) (m : M A) (e : Event) :
  (forall h t, snd (m h t) = t ++ [e]) -> E e -> emits E m.
Proof. intros Hm He h t. exists [e]. split; [apply Hm | now repeat constructor]. Qed.

Ltac emits_step :=
  match goal with
  | |- emits _ (bind (ret _) _) => apply emits_bind_ret; cbv beta
  | |- emits _ (bind _ _) => apply emits_bind; [| intros ?]
  | |- emits _ (if ?b then _ else _) => destruct b
  | |- emits _ (match ?x with _ => _ end) => destruct x
  | |- emits _ (ret _) => apply emits_ret
  | |- emits _ (raise _) => apply emits_raise
  | |- emits _ os_environ => apply emits_pure; reflexivity
  | |- emits _ (Path_is_file _) => apply emits_pure; reflexivity
  | |- emits _ (Path_resolve _) => apply emits_pure; reflexivity
  | |- emits _ (Path_div _ _) => apply emits_pure; reflexivity
  | |- emits _ now_strftime => apply emits_pure; reflexivity
  | |- emits _ (subprocess_run ?cmd) => apply (emits_one _ _ (Spawn cmd)); [reflexivity |]
  | |- emits _ (print ?line) => apply (emits_one _ _ (Print line)); [reflexivity |]
  | |- emits _ (mkdir ?dir) => apply (emits_one _ _ (Mkdir dir)); [reflexivity |]
  | H : forall x, emits ?E (?f x) |- emits ?E (?f _) => apply H
  | H : forall x y, emits ?E (?f x y) |- emits ?E (?f _ _) => apply H
  | H : emits ?E ?m |- emits ?E ?m => exact H
  end.

Lemma emits_is_wsl (E : Event -> Prop) : emits E is_wsl.
Proof. unfold is_wsl. repeat emits_step. Qed.

Lemma emits_run_wslpath (arg value : string) : emits converter_event (run_wslpath arg value).
Proof. unfold run_wslpath. repeat emits_step. now exists arg, value. Qed.

Lemma emits_to_unix_path (path : string) : emits converter_event (to_unix_path path).
Proof.
  unfold to_unix_path.
  pose proof (emits_is_wsl converter_event). pose proof emits_run_wslpath.
  repeat emits_step.
Qed.

Lemma emits_to_windows_path (path : string) : emits converter_event (to_windows_path path).
Proof.
  unfold to_windows_path.
  pose proof (emits_is_wsl converter_event). pose proof emits_run_wslpath.
  repeat emits_step.
Qed.

Lemma emits_resolve_unity_path (cli_unity : option string) (dry_run : bool) :
  emits converter_event (resolve_unity_path cli_unity dry_run).
Proof. unfold resolve_unity_path. pose proof emits_to_unix_path. repeat emits_step. Qed.

Lemma emits_build_args (project_path platform results_file log_file : string)
    (test_filter : option string) :
  emits converter_event
    (build_args project_path platform results_file log_file test_filter).
Proof. unfold build_args. pose proof emits_to_windows_path. repeat emits_step. Qed.

Lemma converter_is_run_event (e : Event) : converter_event e -> run_event e.
Proof. now intros (arg & value & ->). Qed.

Lemma emits_run_one (unity project_path platform results_file log_file : string)
    (test_filter : option string) (dry_run : bool) :
  emits run_event
    (run_one unity project_path platform results_file log_file test_filter dry_run).
Proof.
  unfold run_one.
  assert (Hb : emits run_event
                 (build_args project_path platform results_file log_file test_filter)).
  { eapply emits_weaken; [exact converter_is_run_event | apply emits_build_args]. }
  repeat emits_step; simpl; try exact I; discriminate.
Qed.

(** What the observers see of a list of converter calls, or of the events
    of a run. *)
Lemma converter_events_unseen (body : list Event) :
  Forall converter_event body ->
  launched body = [] /\ printed body = [] /\ made_dirs body = [].
Proof.
  induction 1 as [|e body (arg & value & ->) _ (Hl & Hp & Hd)]; [now repeat split |].
  unfold launched, printed, made_dirs in *.
  change (Spawn ["wslpath"; arg; value] :: body)
    with ([Spawn ["wslpath"; arg; value]] ++ body).
  rewrite !omap_app, Hl, Hp, Hd. now repeat split.
Qed.

Lemma run_events_seen (body : list Event) :
  Forall run_event body ->
  made_dirs body = [] /\ Forall (fun line => line <> done_line) (printed body).
Proof.
  induction 1 as [|e body He _ (Hd & Hp)]; [split; [reflexivity | constructor] |].
  unfold made_dirs, printed in *. change (e :: body) with ([e] ++ body).
  rewrite !omap_app, Hd.
  destruct e as [cmd|line|dir]; [now split | | contradiction].
  split; [reflexivity | now constructor].
Qed.

(** ** Environment detector, once more *)

(** X1. [is_wsl] looks at the names of the environment variables only:
    either name being set, to any value and be it the empty string, makes
    it answer yes; with neither set it answers no; two environments with
    the same names get the same answer.  It adds nothing to the trace. *)
Theorem is_wsl_depends_on_names (h h' : Host) (t : list Event) :
  (forall v,
     environ h !! "WSL_DISTRO_NAME" = Some v \/ environ h !! "WSL_INTEROP" = Some v ->
     is_wsl h t = (Ok true, t))
  /\ (environ h !! "WSL_DISTRO_NAME" = None -> environ h !! "WSL_INTEROP" = None ->
      is_wsl h t = (Ok false, t))
  /\ (dom (environ h) = dom (environ h') -> is_wsl h t = is_wsl h' t).
Proof.
  split; [| split].
  - intros v Hv. apply is_wsl_inside. unfold inside_wsl. rewrite !elem_of_dom.
    destruct Hv as [Hv|Hv]; rewrite Hv; eauto.
  - intros H1 H2. apply is_wsl_outside. unfold inside_wsl. rewrite !elem_of_dom, H1, H2.
    intros [[x [=]]|[x [=]]].
  - intros Hdom. rewrite !is_wsl_run. do 2 f_equal.
    apply bool_decide_ext. unfold inside_wsl. now rewrite Hdom.
Qed.

Lemma is_wsl_depends_on_names_witness : is_wsl blank_wsl_host [] = (Ok true, []).
Proof.
  apply (is_wsl_depends_on_names blank_wsl_host blank_wsl_host [] ) with (v := EmptyString).
  left. reflexivity.
Defined.

(** ** Executable resolver, once more *)

Lemma to_unix_path_with_environ (env : gmap string string) (path : string)
    (h : Host) (t : list Event) :
  (inside_wsl (with_environ env h) <-> inside_wsl h) ->
  to_unix_path path (with_environ env h) t = to_unix_path path h t.
Proof.
  intros Hsame. rewrite !to_unix_path_run, !run_wslpath_run.
  now rewrite (bool_decide_ext _ _ Hsame).
Qed.

Lemma resolve_unity_path_with_environ (env : gmap string string) (c : ascii)
    (rest : string) (dry_run : bool) (h : Host) (t : list Event) :
  (inside_wsl (with_environ env h) <-> inside_wsl h) ->
  resolve_unity_path (Some (String c rest)) dry_run (with_environ env h) t
  = resolve_unity_path (Some (String c rest)) dry_run h t.
Proof.
  intros Hsame. unfold resolve_unity_path. rewrite !bind_run. cbn [os_environ Py.or_ Py.truthy].
  rewrite !bind_run, (to_unix_path_with_environ env _ h t Hsame).
  destruct (to_unix_path (String c rest) h t) as [[u|e] t1]; [| reflexivity].
  destruct dry_run; [reflexivity |].
  unfold bind, Path_is_file, ret, raise. cbn [negb is_file with_environ].
  now destruct (is_file h u).
Qed.

(** X2. An explicit executable path that is not empty takes precedence:
    what [resolve_unity_path] does is the same whatever the value of
    [UNITY_EDITOR_PATH], and the same when that variable is not set. *)
Theorem resolve_unity_path_cli_precedence (c : ascii) (rest : string) (dry_run : bool)
    (h : Host) (t : list Event) :
  (forall v,
     resolve_unity_path (Some (String c rest)) dry_run
       (with_environ (<[ "UNITY_EDITOR_PATH" := v ]> (environ h)) h) t
     = resolve_unity_path (Some (String c rest)) dry_run h t)
  /\ resolve_unity_path (Some (String c rest)) dry_run
       (with_environ (delete "UNITY_EDITOR_PATH" (environ h)) h) t
     = resolve_unity_path (Some (String c rest)) dry_run h t.
Proof.
  split; [intros v |]; apply resolve_unity_path_with_environ;
    unfold inside_wsl; cbn [environ with_environ]; rewrite !elem_of_dom.
  - now rewrite !lookup_insert_ne by discriminate.
  - now rewrite !lookup_delete_ne by discriminate.
Qed.

(** X3. Unless the run is simulated, the path [resolve_unity_path] returns
    is a file of the host, and the trace has grown by at most one call of
    the converter; when it fails because the executable is missing, the
    message names a path that is not a file of the host. *)
Theorem resolve_unity_path_checks_file (cli_unity : option string) (h : Host)
    (t : list Event) :
  (forall unity t',
     resolve_unity_path cli_unity false h t = (Ok unity, t') ->
     is_file h unity = true
     /\ (t' = t \/ exists raw, t' = t ++ [Spawn ["wslpath"; "-u"; raw]]))
  /\ (forall e t',
        resolve_unity_path cli_unity false h t = (Raise e, t') ->
        ExecutableNotFoundError e ->
        exists unity, e = executable_not_found unity /\ is_file h unity = false).
Proof.
  unfold resolve_unity_path. rewrite bind_run. cbn [os_environ].
  destruct (Py.or_ cli_unity (environ h !! "UNITY_EDITOR_PATH")) as [[|c rest]|].
  1, 3: split; [intros ? ? [=] |];
        intros e t' [= <- _] Hnf;
        exfalso; apply (not_found_not_configuration _ Hnf); now left.
  rewrite bind_run, to_unix_path_run, run_wslpath_run. cbv zeta.
  set (raw := String c rest).
  assert (Hstep : forall unity tu,
            bind (if negb false
                  then bind (Path_is_file unity) (fun found => ret (negb found))
                  else ret false)
              (fun missing => if missing then raise (executable_not_found unity)
                              else ret unity) h tu
            = if is_file h unity then (Ok unity, tu)
              else (Raise (executable_not_found unity), tu)).
  { intros unity tu. unfold bind, Path_is_file, ret, raise. cbn [negb].
    now destruct (is_file h unity). }
  unfold executable_not_found in Hstep.
  destruct (bool_decide (inside_wsl h) && looks_like_windows_path raw).
  - destruct (returncode (run_process h t ["wslpath"; "-u"; raw]) =? 0)%Z.
    + rewrite Hstep.
      destruct (is_file h (Py.strip (stdout (run_process h t ["wslpath"; "-u"; raw]))))
        eqn:Hfile; split.
      * intros unity t' [= <- <-]. split; [exact Hfile | right; now exists raw].
      * intros e t' [=].
      * intros unity t' [=].
      * intros e t' Heq _. eexists. split; [| exact Hfile].
        unfold executable_not_found. congruence.
    + split; [intros ? ? [=] |]. intros e t' [= <- _] Hnf.
      exfalso. apply (not_found_not_conversion _ Hnf). now exists raw.
  - rewrite Hstep. destruct (is_file h raw) eqn:Hfile; split.
    + intros unity t' [= <- <-]. split; [exact Hfile | now left].
    + intros e t' [=].
    + intros unity t' [=].
    + intros e t' Heq _. exists raw. split; [| exact Hfile].
      unfold executable_not_found. congruence.
Qed.

Lemma resolve_unity_path_checks_file_witness :
  is_file linux_host "/opt/unity/Editor/Unity" = true
  /\ exists unity,
       executable_not_found "/opt/unity/Editor/Unity" = executable_not_found unity
       /\ is_file (with_is_file (fun _ => false) linux_host) unity = false.
Proof.
  split.
  - refine (proj1 (proj1 (resolve_unity_path_checks_file None linux_host [])
                     "/opt/unity/Editor/Unity" [] _)).
    vm_compute. reflexivity.
  - refine (proj2 (resolve_unity_path_checks_file None
                     (with_is_file (fun _ => false) linux_host) []) _ [] _ _).
    + vm_compute. reflexivity.
    + now exists "/opt/unity/Editor/Unity".
Defined.

(** ** Path translator, once more *)

Lemma lstrip_blank (s : string) : blank s = true -> Py.lstrip s = EmptyString.
Proof.
  induction s as [|c s IH]; simpl; [reflexivity |].
  destruct (Py.isspace c); [exact IH | discriminate].
Qed.

(** X4. A converter that exits zero and prints nothing but whitespace makes
    [run_wslpath] return the empty string: a blank answer is not an
    error. *)
Theorem run_wslpath_blank_output (arg value : string) (h : Host) (t : list Event) :
  returncode (run_process h t ["wslpath"; arg; value]) = 0%Z ->
  blank (stdout (run_process h t ["wslpath"; arg; value])) = true ->
  run_wslpath arg value h t = (Ok EmptyString, t ++ [Spawn ["wslpath"; arg; value]]).
Proof.
  intros Hrc Hblank. rewrite run_wslpath_run. cbv zeta. rewrite Hrc. cbn [Z.eqb].
  unfold Py.strip. now rewrite (lstrip_blank _ Hblank).
Qed.

Lemma run_wslpath_blank_output_witness :
  run_wslpath "-w" "/work/proj" blank_wsl_host []
  = (Ok EmptyString, [Spawn ["wslpath"; "-w"; "/work/proj"]]).
Proof.
  apply (run_wslpath_blank_output "-w" "/work/proj" blank_wsl_host []); reflexivity.
Defined.

(** ** Invocation builder, once more *)

(** X5. Inside the compatibility layer [build_args] converts the project
    path, the results file and the log file, in that order, each with one
    call of the converter in its to-windows mode.  The first call that
    exits non-zero ends it, with a conversion error naming that path and
    no further call; when all three pass, the three converted paths are
    the outputs of the three calls, stripped. *)
Theorem build_args_inside_wsl (project_path platform results_file log_file : string)
    (test_filter : option string) (h : Host) (t : list Event) :
  inside_wsl h ->
  let call path := ["wslpath"; "-w"; path] in
  let t1 := t ++ [Spawn (call project_path)] in
  let t2 := t1 ++ [Spawn (call results_file)] in
  let t3 := t2 ++ [Spawn (call log_file)] in
  let c1 := run_process h t (call project_path) in
  let c2 := run_process h t1 (call results_file) in
  let c3 := run_process h t2 (call log_file) in
  build_args project_path platform results_file log_file test_filter h t
  = if negb (returncode c1 =? 0)%Z then (Raise (conversion_failed project_path), t1)
    else if negb (returncode c2 =? 0)%Z then (Raise (conversion_failed results_file), t2)
    else if negb (returncode c3 =? 0)%Z then (Raise (conversion_failed log_file), t3)
    else (Ok (invocation (Py.strip (stdout c1)) platform
                (Py.strip (stdout c2)) (Py.strip (stdout c3))
              ++ filter_pair test_filter), t3).
Proof.
  intros Hin. cbv zeta. unfold build_args, conversion_failed.
  rewrite bind_run, to_windows_path_run, (bool_decide_eq_true_2 _ Hin), run_wslpath_run.
  cbv zeta. destruct (returncode _ =? 0)%Z; [| reflexivity]. cbn [negb].
  rewrite bind_run, to_windows_path_run, (bool_decide_eq_true_2 _ Hin), run_wslpath_run.
  cbv zeta. destruct (returncode _ =? 0)%Z; [| reflexivity]. cbn [negb].
  rewrite bind_run, to_windows_path_run, (bool_decide_eq_true_2 _ Hin), run_wslpath_run.
  cbv zeta. destruct (returncode _ =? 0)%Z; [| reflexivity]. cbn [negb].
  now destruct test_filter as [[|c rest]|].
Qed.

Lemma build_args_inside_wsl_witness :
  build_args "/work/proj" "EditMode" "out/r.xml" "out/l.log" None broken_wsl_host []
  = (Raise (conversion_failed "/work/proj"), [Spawn ["wslpath"; "-w"; "/work/proj"]]).
Proof.
  apply (build_args_inside_wsl "/work/proj" "EditMode" "out/r.xml" "out/l.log" None
           broken_wsl_host []).
  decide_wsl.
Defined.

(** ** Run executor, once more *)

Lemma launched_prints (t : list Event) (lines : list string) :
  launched (t ++ map Print lines) = launched t.
Proof.
  unfold launched. rewrite omap_app.
  replace (omap launch_of (map Print lines)) with (@nil (list string));
    [apply app_nil_r |].
  induction lines as [|l lines IH]; [reflexivity | exact IH].
Qed.

Lemma printed_prints (t : list Event) (lines : list string) :
  printed (t ++ map Print lines) = printed t ++ lines.
Proof.
  unfold printed. rewrite omap_app. f_equal.
  induction lines as [|l lines IH]; [reflexivity |].
  change (omap print_of (map Print (l :: lines))) with (l :: omap print_of (map Print lines)).
  now rewrite IH.
Qed.

Lemma launched_converter_events (t body : list Event) :
  Forall converter_event body -> launched (t ++ body) = launched t.
Proof.
  intros F. destruct (converter_events_unseen body F) as (Hl & _ & _).
  unfold launched in *. now rewrite omap_app, Hl, app_nil_r.
Qed.

Lemma printed_converter_events (t body : list Event) :
  Forall converter_event body -> printed (t ++ body) = printed t.
Proof.
  intros F. destruct (converter_events_unseen body F) as (_ & Hp & _).
  unfold printed in *. now rewrite omap_app, Hp, app_nil_r.
Qed.

Lemma runner_failed_not_conversion (code : Z) : ~ PathConversionError (runner_failed code).
Proof. intros [value H]. unfold runner_failed in H. simpl in H. discriminate H. Qed.

(** X6. When [run_one] fails on a path conversion, it has printed nothing,
    launched nothing and created nothing: the failure is the one of
    [build_args], which comes before the progress lines. *)
Theorem run_one_conversion_failure_is_silent
    (unity project_path platform results_file log_file : string)
    (test_filter : option string) (dry_run : bool) (h : Host) (t t' : list Event)
    (e : Exception) :
  run_one unity project_path platform results_file log_file test_filter dry_run h t
  = (Raise e, t') ->
  PathConversionError e ->
  build_args project_path platform results_file log_file test_filter h t = (Raise e, t')
  /\ printed t' = printed t /\ launched t' = launched t /\ made_dirs t' = made_dirs t.
Proof.
  rewrite run_one_run. intros Hrun Hconv.
  pose proof (emits_build_args project_path platform results_file log_file test_filter h t)
    as (body & Hbody & Fbody).
  destruct (build_args _ _ _ _ _ h t) as [[args|e1] t1]; simpl in Hbody.
  - exfalso. cbv zeta in Hrun. destruct dry_run; [discriminate Hrun |].
    destruct (returncode _ =? 0)%Z; [discriminate Hrun |].
    injection Hrun as <- _. exact (runner_failed_not_conversion _ Hconv).
  - injection Hrun as <- <-. split; [reflexivity |].
    destruct (converter_events_unseen body Fbody) as (Hl & Hp & Hd).
    subst t1. unfold printed, launched, made_dirs in *.
    rewrite !omap_app, Hl, Hp, Hd, !app_nil_r. now repeat split.
Qed.

Lemma run_one_conversion_failure_is_silent_witness :
  printed (snd (run_one "/opt/unity/Editor/Unity" "/work/proj" "EditMode"
                  "out/r.xml" "out/l.log" None false broken_wsl_host []))
  = printed [].
Proof.
  refine (proj1 (proj2 (run_one_conversion_failure_is_silent
                          "/opt/unity/Editor/Unity" "/work/proj" "EditMode"
                          "out/r.xml" "out/l.log" None false broken_wsl_host [] _
                          (conversion_failed "/work/proj") _ _))).
  - vm_compute. reflexivity.
  - now exists "/work/proj".
Defined.

(** ** The exit code in the message *)

Lemma str_of_int_inj (a b : Z) : Py.str_of_int a = Py.str_of_int b -> a = b.
Proof.
  unfold Py.str_of_int. intros H. apply DecimalZ.to_int_inj.
  assert (Hn : forall z, Z.to_int z <> Decimal.Pos Decimal.Nil
                         /\ Z.to_int z <> Decimal.Neg Decimal.Nil).
  { intros [|p|p]; simpl; split; try discriminate;
      intros [= Hp]; exact (Unsigned.to_uint_nonnil p Hp). }
  pose proof (NilZero.isi _ (proj1 (Hn a)) (proj2 (Hn a))) as Ha.
  pose proof (NilZero.isi _ (proj1 (Hn b)) (proj2 (Hn b))) as Hb.
  rewrite H in Ha. congruence.
Qed.

Lemma append_length (a b : string) :
  String.length (a +:+ b) = (String.length a + String.length b)%nat.
Proof. induction a as [|x a IH]; simpl; [reflexivity | now rewrite IH]. Qed.

Lemma append_cancel_r (a b r : string) : a +:+ r = b +:+ r -> a = b.
Proof.
  revert b. induction a as [|x a IH]; intros [|y b] H.
  - reflexivity.
  - apply (f_equal String.length) in H. rewrite !append_length in H. simpl in H. lia.
  - apply (f_equal String.length) in H. rewrite !append_length in H. simpl in H. lia.
  - simpl in H. injection H as <- H. f_equal. now apply IH.
Qed.

Lemma runner_failed_inj (a b : Z) : runner_failed a = runner_failed b -> a = b.
Proof.
  unfold runner_failed. intros [= H]. apply append_cancel_r in H.
  now apply str_of_int_inj.
Qed.

(** ** Run executor: what an outcome tells *)

(** On a host where every process starts, a run that is not simulated
    ends in one of these ways. *)
Lemma run_one_cases (unity project_path platform results_file log_file : string)
    (test_filter : option string) (h : Host) (t t' : list Event) (r : Result unit) :
  run_one unity project_path platform results_file log_file test_filter false h t
  = (r, t') ->
  (exists e, r = Raise e /\ PathConversionError e /\ launched t' = launched t)
  \/ (exists t2 args,
        t' = t2 ++ [Spawn (unity :: args)]
        /\ launched t' = launched t ++ [unity :: args]
        /\ printed t' = printed t ++ progress platform results_file log_file
        /\ let code := returncode (run_process h t2 (unity :: args)) in
           (code = 0%Z /\ r = Ok tt)
           \/ (code <> 0%Z /\ r = Raise (runner_failed code))).
Proof.
  rewrite run_one_run. intros Hrun.
  pose proof (emits_build_args project_path platform results_file log_file test_filter h t)
    as (body & Hbody & Fbody).
  pose proof (raises_build_args project_path platform results_file log_file test_filter h t)
    as Hraise.
  destruct (converter_events_unseen body Fbody) as (Hl & Hp & Hd).
  destruct (build_args _ _ _ _ _ h t) as [[args|e1] t1] eqn:Hbuild; simpl in Hbody; subst t1.
  - right. cbv zeta in Hrun.
    destruct (build_args_shape _ _ _ _ _ _ _ _ _ Hbuild) as (p & rf & lf & Hargs).
    exists ((t ++ body) ++ map Print (progress platform results_file log_file)), args.
    assert (Hnc : is_converter_call (unity :: args) = false) by (subst args; reflexivity).
    pose proof (f_equal fst Hrun) as Hr. pose proof (f_equal snd Hrun) as Ht.
    cbn [fst snd] in Hr, Ht. clear Hrun.
    split; [now symmetry |]. subst t'. split; [| split].
    + unfold launched at 1.
      rewrite (omap_snoc_Some launch_of _ (Spawn (unity :: args)) (unity :: args))
        by (cbn [launch_of]; now rewrite Hnc).
      fold (launched ((t ++ body) ++ map Print (progress platform results_file log_file))).
      now rewrite launched_prints, launched_converter_events.
    + unfold printed at 1. rewrite (omap_snoc_None print_of) by reflexivity.
      fold (printed ((t ++ body) ++ map Print (progress platform results_file log_file))).
      now rewrite printed_prints, printed_converter_events.
    + cbv zeta. destruct (returncode _ =? 0)%Z eqn:Hcode.
      * left. apply Z.eqb_eq in Hcode. now split.
      * right. apply Z.eqb_neq in Hcode. now split.
  - left. injection Hrun as <- <-. exists e1. split; [reflexivity |].
    split; [exact (Hraise _ _ eq_refl) |].
    now apply launched_converter_events.
Qed.

(** X7. What the outcome of a run that is not simulated tells.  When
    [run_one] returns normally, the runner has been launched exactly once,
    after the three progress lines, and it exited with code zero.  When
    [run_one] fails with the runner-failed error for some exit code, the
    runner has been launched exactly once, after the three progress
    lines, and that code is the non-zero exit code of that launch.  When
    it fails on a path conversion, no runner has been launched. *)
Theorem run_one_outcomes (unity project_path platform results_file log_file : string)
    (test_filter : option string) (h : Host) (t t' : list Event) (r : Result unit) :
  run_one unity project_path platform results_file log_file test_filter false h t
  = (r, t') ->
  (r = Ok tt ->
   exists t2 args,
     t' = t2 ++ [Spawn (unity :: args)]
     /\ launched t' = launched t ++ [unity :: args]
     /\ printed t' = printed t ++ progress platform results_file log_file
     /\ returncode (run_process h t2 (unity :: args)) = 0%Z)
  /\ (forall code, r = Raise (runner_failed code) ->
        exists t2 args,
          t' = t2 ++ [Spawn (unity :: args)]
          /\ launched t' = launched t ++ [unity :: args]
          /\ printed t' = printed t ++ progress platform results_file log_file
          /\ returncode (run_process h t2 (unity :: args)) = code
          /\ code <> 0%Z)
  /\ (forall e, r = Raise e -> PathConversionError e -> launched t' = launched t).
Proof.
  intros Hrun.
  destruct (run_one_cases _ _ _ _ _ _ _ _ _ _ Hrun)
    as [(e & -> & Hconv & Hl) | (t2 & args & Ht & Hl & Hp & Hcode)].
  - split; [discriminate |]. split.
    + intros code [= ->]. exfalso. exact (runner_failed_not_conversion code Hconv).
    + intros _ _ _. exact Hl.
  - cbv zeta in Hcode. destruct Hcode as [[Hzero ->] | [Hnz ->]].
    + split; [| split; [discriminate |]].
      * intros _. exists t2, args. now repeat split.
      * intros e [=].
    + split; [discriminate |]. split.
      * intros code Heq. assert (Hinj : runner_failed
                 (returncode (run_process h t2 (unity :: args))) = runner_failed code)
          by congruence.
        apply runner_failed_inj in Hinj. subst code.
        exists t2, args. now repeat split.
      * intros e Heq Hconv. exfalso.
        assert (He : e = runner_failed (returncode (run_process h t2 (unity :: args))))
          by congruence.
        subst e. exact (runner_failed_not_conversion _ Hconv).
Qed.

Lemma run_one_outcomes_witness :
  exists t2 args,
    snd (run_one "/opt/unity/Editor/Unity" "/work/proj" "EditMode" "out/r.xml" "out/l.log"
           None false flaky_host [])
    = t2 ++ [Spawn ("/opt/unity/Editor/Unity" :: args)]
    /\ returncode (run_process flaky_host t2 ("/opt/unity/Editor/Unity" :: args)) = 3%Z.
Proof.
  destruct (proj1 (proj2 (run_one_outcomes "/opt/unity/Editor/Unity" "/work/proj"
                            "EditMode" "out/r.xml" "out/l.log" None flaky_host []
                            (snd (run_one "/opt/unity/Editor/Unity" "/work/proj" "EditMode"
                                    "out/r.xml" "out/l.log" None false flaky_host []))
                            (Raise (runner_failed 3)) ltac:(vm_compute; reflexivity)))
              3%Z eq_refl)
    as (t2 & args & Ht & _ & _ & Hcode & _).
  exists t2, args. now split.
Defined.

(** X13. When [run_one] fails because the runner failed, the message is
    the fixed text followed by the exit code of the launched runner, in
    decimal with its sign, and a full stop; the exit code can be read back
    from the message: no other code gives the same message. *)
Theorem run_one_failure_shows_code
    (unity project_path platform results_file log_file : string)
    (test_filter : option string) (h : Host) (t t' : list Event) (e : Exception) :
  run_one unity project_path platform results_file log_file test_filter false h t
  = (Raise e, t') ->
  RunnerFailedError e ->
  exists t2 args,
    t' = t2 ++ [Spawn (unity :: args)]
    /\ let code := returncode (run_process h t2 (unity :: args)) in
       e = SystemExit ("Error: Unity test run failed with exit code "
                       +:+ Py.str_of_int code +:+ ".")
       /\ (forall code', e = runner_failed code' -> code' = code)
       /\ exists msg, e = SystemExit msg /\ Py.contains (Py.str_of_int code) msg = true.
Proof.
  intros Hrun Hfailed.
  destruct (run_one_cases _ _ _ _ _ _ _ _ _ _ Hrun)
    as [(e1 & He & Hconv & _) | (t2 & args & Ht & _ & _ & Hcode)].
  - exfalso. assert (e1 = e) as -> by congruence.
    destruct Hfailed as (code & _ & ->). exact (runner_failed_not_conversion code Hconv).
  - cbv zeta in Hcode. destruct Hcode as [[_ [=]] | [_ He]].
    assert (e = runner_failed (returncode (run_process h t2 (unity :: args)))) as ->
      by congruence.
    exists t2, args. split; [exact Ht |]. cbv zeta. split; [reflexivity |]. split.
    + intros code' Heq. symmetry. now apply runner_failed_inj.
    + eexists. split; [reflexivity | apply contains_app].
Qed.

Lemma run_one_failure_shows_code_witness :
  exists t2 args,
    snd (run_one "/opt/unity/Editor/Unity" "/work/proj" "EditMode" "out/r.xml" "out/l.log"
           None false flaky_host [])
    = t2 ++ [Spawn ("/opt/unity/Editor/Unity" :: args)]
    /\ runner_failed 3
       = SystemExit ("Error: Unity test run failed with exit code "
                     +:+ Py.str_of_int
                           (returncode
                              (run_process flaky_host t2 ("/opt/unity/Editor/Unity" :: args)))
                     +:+ ".").
Proof.
  destruct (run_one_failure_shows_code "/opt/unity/Editor/Unity" "/work/proj"
              "EditMode" "out/r.xml" "out/l.log" None flaky_host []
              (snd (run_one "/opt/unity/Editor/Unity" "/work/proj" "EditMode"
                      "out/r.xml" "out/l.log" None false flaky_host []))
              (runner_failed 3))
    as (t2 & args & Ht & He & _).
  - vm_compute. reflexivity.
  - exists 3%Z. split; [discriminate | reflexivity].
  - exists t2, args. now split.
Defined.

(** X8. From one and the same state, a simulated run echoes exactly the
    command line that a real run launches, after the same progress lines;
    and when the paths cannot be converted both fail alike. *)
Theorem run_one_dry_run_previews_launch
    (unity project_path platform results_file log_file : string)
    (test_filter : option string) (h : Host) (t : list Event) :
  let dry := run_one unity project_path platform results_file log_file test_filter true h t in
  let real := run_one unity project_path platform results_file log_file test_filter false h t in
  (exists e t1, PathConversionError e /\ dry = (Raise e, t1) /\ real = (Raise e, t1))
  \/ (exists cmd t2,
        dry = (Ok tt, t2 ++ [Print (echo cmd)])
        /\ snd real = t2 ++ [Spawn cmd]
        /\ printed t2 = printed t ++ progress platform results_file log_file
        /\ launched t2 = launched t).
Proof.
  cbv zeta. rewrite !run_one_run.
  pose proof (emits_build_args project_path platform results_file log_file test_filter h t)
    as (body & Hbody & Fbody).
  pose proof (raises_build_args project_path platform results_file log_file test_filter h t)
    as Hraise.
  destruct (converter_events_unseen body Fbody) as (Hl & Hp & Hd).
  destruct (build_args _ _ _ _ _ h t) as [[args|e1] t1]; simpl in Hbody; subst t1.
  - right. cbv zeta.
    exists (unity :: args), ((t ++ body) ++ map Print (progress platform results_file log_file)).
    split; [reflexivity |]. split; [reflexivity |]. split.
    + now rewrite printed_prints, printed_converter_events.
    + now rewrite launched_prints, launched_converter_events.
  - left. exists e1, (t ++ body). split; [exact (Hraise _ _ eq_refl) | now split].
Qed.

(** ** The phases of a command *)

(** Splits an equation between two results into its two components. *)
Ltac split_result H :=
  let Hr := fresh "Hr" in
  let Ht := fresh "Ht" in
  pose proof (f_equal fst H) as Hr; pose proof (f_equal snd H) as Ht;
  cbn [fst snd] in Hr, Ht; clear H; try subst.

Lemma runner_failed_not_found (code : Z) : ~ ExecutableNotFoundError (runner_failed code).
Proof. intros [unity H]. unfold runner_failed in H. simpl in H. discriminate H. Qed.

Lemma conversion_not_configuration (e : Exception) :
  PathConversionError e -> ~ ConfigurationError e.
Proof.
  intros [value ->] [H | [H | [c H]]]; try destruct c; simpl in H; discriminate H.
Qed.

(** [resolve_unity_path] fails in three ways only. *)
Lemma resolve_unity_path_failures (cli_unity : option string) (dry_run : bool) :
  raises_only
    (fun e => ConfigurationError e \/ PathConversionError e
              \/ (dry_run = false /\ ExecutableNotFoundError e))
    (resolve_unity_path cli_unity dry_run).
Proof.
  unfold resolve_unity_path.
  assert (Hu : forall p,
            raises_only
              (fun e => ConfigurationError e \/ PathConversionError e
                        \/ (dry_run = false /\ ExecutableNotFoundError e))
              (to_unix_path p)).
  { intros p. apply (raises_only_weaken PathConversionError); [| apply raises_to_unix_path].
    intros e He. right. now left. }
  destruct dry_run; simpl; effects; try (left; now left).
  right. right. split; [reflexivity |]. eexists. reflexivity.
Qed.

(** [run_one] fails in two ways only. *)
Lemma run_one_failures (unity project_path platform results_file log_file : string)
    (test_filter : option string) (dry_run : bool) :
  raises_only
    (fun e => PathConversionError e \/ (dry_run = false /\ RunnerFailedError e))
    (run_one unity project_path platform results_file log_file test_filter dry_run).
Proof.
  intros h t e t'. rewrite run_one_run.
  pose proof (raises_build_args project_path platform results_file log_file test_filter h t)
    as Hraise.
  destruct (build_args _ _ _ _ _ h t) as [[args|e1] t1].
  - cbv zeta. destruct dry_run; [discriminate |].
    destruct (returncode _ =? 0)%Z eqn:Hcode; [discriminate |].
    intros Heq. right. split; [reflexivity |]. apply Z.eqb_neq in Hcode.
    eexists. split; [exact Hcode |]. unfold runner_failed in Heq. congruence.
  - intros Heq. left. assert (e = e1) as -> by congruence. exact (Hraise _ _ eq_refl).
Qed.

(** What [run_one] leaves: the trace it got, then events of a run. *)
Lemma run_one_trace (unity project_path platform results_file log_file : string)
    (test_filter : option string) (dry_run : bool) (h : Host) (t t' : list Event)
    (r : Result unit) :
  run_one unity project_path platform results_file log_file test_filter dry_run h t
  = (r, t') ->
  (exists body, t' = t ++ body /\ Forall run_event body)
  /\ (forall e, r = Raise e ->
        PathConversionError e \/ (dry_run = false /\ RunnerFailedError e)).
Proof.
  intros Hrun. split.
  - destruct (emits_run_one unity project_path platform results_file log_file
                test_filter dry_run h t) as (body & Hb & Fb).
    rewrite Hrun in Hb. now exists body.
  - intros e ->. exact (run_one_failures _ _ _ _ _ _ _ _ _ _ _ Hrun).
Qed.

(** A command either fails before anything is set up, having done nothing
    but call the converter; or it creates the two directories and goes on
    with its run or runs, ending with the completion marker when all
    went well. *)
Lemma main_phases (args : Namespace.t) (h : Host) (r : Result unit) (t : list Event) :
  run_main args h = (r, t) ->
  (exists e,
     r = Raise e /\ Forall converter_event t
     /\ (ConfigurationError e \/ PathConversionError e
         \/ (Namespace.dry_run args = false /\ ExecutableNotFoundError e)))
  \/ (exists t0 body,
        Forall converter_event t0 /\ Forall run_event body
        /\ let setup := t0 ++ [Mkdir (Namespace.results_dir args);
                               Mkdir (Namespace.logs_dir args)] in
           (r = Ok tt /\ t = setup ++ body ++ [Print done_line])
           \/ (exists e,
                 r = Raise e /\ t = setup ++ body
                 /\ (PathConversionError e
                     \/ (Namespace.dry_run args = false /\ RunnerFailedError e)))).
Proof.
  destruct args as [command platform filter cli_unity project_path results_dir logs_dir dry].
  unfold run_main, main.
  cbn [Namespace.command Namespace.platform Namespace.filter Namespace.unity
       Namespace.dry_run Namespace.project_path Namespace.results_dir Namespace.logs_dir].
  destruct (_ && negb (bool_decide (is_Some platform))).
  { intros Heq. unfold raise in Heq. split_result Heq.
    left. eexists. split; [reflexivity |]. split; [constructor |].
    left. right. right. now exists command. }
  destruct (_ && negb (Py.truthy filter)).
  { intros Heq. unfold raise in Heq. split_result Heq.
    left. eexists. split; [reflexivity |]. split; [constructor |].
    left. right. now left. }
  rewrite bind_run.
  destruct (emits_resolve_unity_path cli_unity dry h []) as (t0 & Ht0 & F0).
  pose proof (resolve_unity_path_failures cli_unity dry h []) as Hfail.
  destruct (resolve_unity_path cli_unity dry h []) as [[unity|e] t0'];
    cbn [snd app] in Ht0; subst t0'.
  2: { intros Heq. split_result Heq. left. exists e. split; [reflexivity |].
       split; [exact F0 |]. exact (Hfail _ _ eq_refl). }
  clear Hfail. intros Hmain. right. exists t0.
  unfold bind, Path_resolve, mkdir, now_strftime, Path_div, print in Hmain.
  replace ((t0 ++ [Mkdir results_dir]) ++ [Mkdir logs_dir])
    with (t0 ++ [Mkdir results_dir; Mkdir logs_dir]) in Hmain
    by (now rewrite <- app_assoc).
  set (setup := t0 ++ [Mkdir results_dir; Mkdir logs_dir]) in *.
  destruct command.
  - destruct (run_one _ _ _ _ _ filter dry h setup) as [[[]|e1] t1] eqn:Hrun;
      destruct (run_one_trace _ _ _ _ _ _ _ _ _ _ _ Hrun) as ((body & -> & Fb) & Hkind);
      exists body; (split; [exact F0 |]); (split; [exact Fb |]); cbv zeta; fold setup.
    + split_result Hmain. left. split; [reflexivity |].
      unfold done_line. now rewrite <- !app_assoc.
    + split_result Hmain. right. exists e1.
      split; [reflexivity |]. split; [reflexivity | now apply Hkind].
  - destruct (run_one _ _ _ _ _ None dry h setup) as [[[]|e1] t1] eqn:Hrun;
      destruct (run_one_trace _ _ _ _ _ _ _ _ _ _ _ Hrun) as ((body & -> & Fb) & Hkind);
      exists body; (split; [exact F0 |]); (split; [exact Fb |]); cbv zeta; fold setup.
    + split_result Hmain. left. split; [reflexivity |].
      unfold done_line. now rewrite <- !app_assoc.
    + split_result Hmain. right. exists e1.
      split; [reflexivity |]. split; [reflexivity | now apply Hkind].
  - destruct (run_one _ _ "EditMode" _ _ None dry h setup) as [[[]|e1] t1] eqn:Hrun1;
      destruct (run_one_trace _ _ _ _ _ _ _ _ _ _ _ Hrun1) as ((b1 & -> & Fb1) & Hkind1).
    + destruct (run_one _ _ "PlayMode" _ _ None dry h (setup ++ b1))
        as [[[]|e2] t2] eqn:Hrun2;
        destruct (run_one_trace _ _ _ _ _ _ _ _ _ _ _ Hrun2) as ((b2 & -> & Fb2) & Hkind2);
        exists (b1 ++ b2); (split; [exact F0 |]);
        (split; [now apply Forall_app |]); cbv zeta; fold setup.
      * split_result Hmain. left. split; [reflexivity |].
        unfold done_line. now rewrite <- !app_assoc.
      * split_result Hmain. right. exists e2. split; [reflexivity |].
        split; [now rewrite <- !app_assoc | now apply Hkind2].
    + split_result Hmain. exists b1. split; [exact F0 |]. split; [exact Fb1 |].
      cbv zeta. fold setup.
      right. exists e1. split; [reflexivity |]. split; [reflexivity | now apply Hkind1].
Qed.

Lemma made_dirs_setup (t0 body : list Event) (results_dir logs_dir : string) :
  Forall converter_event t0 -> Forall run_event body ->
  made_dirs ((t0 ++ [Mkdir results_dir; Mkdir logs_dir]) ++ body) = [results_dir; logs_dir]
  /\ printed ((t0 ++ [Mkdir results_dir; Mkdir logs_dir]) ++ body) = printed body.
Proof.
  intros F0 Fb.
  destruct (converter_events_unseen t0 F0) as (_ & Hp0 & Hd0).
  destruct (run_events_seen body Fb) as (Hdb & _).
  unfold made_dirs, printed in *. rewrite !omap_app, Hp0, Hd0, Hdb. now split.
Qed.

(** ** Directories *)

(** X9. A command calls [mkdir] for the results directory and then for the
    logs directory, and for nothing else, before it prints or launches
    anything: whenever something has been printed or launched, and
    whenever the command ends normally, simulated or not, the trace is
    some calls of the converter, then the two [mkdir] calls in that order,
    then events that create nothing.  When the command fails on its
    configuration or on a missing executable, [mkdir] has not been called,
    and nothing has been printed or launched. *)
Theorem main_directories (args : Namespace.t) (h : Host) (r : Result unit)
    (t : list Event) :
  run_main args h = (r, t) ->
  let dirs := [Namespace.results_dir args; Namespace.logs_dir args] in
  (printed t <> [] \/ launched t <> [] \/ r = Ok tt ->
   made_dirs t = dirs
   /\ exists t0 rest,
        t = t0 ++ map Mkdir dirs ++ rest
        /\ printed t0 = [] /\ launched t0 = [] /\ made_dirs t0 = []
        /\ made_dirs rest = [])
  /\ (forall e, r = Raise e -> ConfigurationError e \/ ExecutableNotFoundError e ->
        made_dirs t = [] /\ printed t = [] /\ launched t = []).
Proof.
  intros Hmain. cbv zeta.
  destruct (main_phases args h r t Hmain)
    as [(e & -> & Ft & Hkind) | (t0 & body & F0 & Fb & Hcase)].
  - destruct (converter_events_unseen t Ft) as (Hl & Hp & Hd).
    split; [| intros _ _ _; now repeat split].
    intros [Hprinted | [Hlaunched | Hok]]; [now destruct Hprinted | | discriminate Hok].
    now destruct Hlaunched.
  - cbv zeta in Hcase.
    destruct (converter_events_unseen t0 F0) as (Hl0 & Hp0 & Hd0).
    destruct (run_events_seen body Fb) as (Hdb & _).
    assert (Hshape : exists rest,
              t = t0 ++ map Mkdir [Namespace.results_dir args; Namespace.logs_dir args]
                    ++ rest
              /\ made_dirs rest = []).
    { destruct Hcase as [[_ ->] | (e & _ & -> & _)].
      - exists (body ++ [Print done_line]). split; [now rewrite <- !app_assoc |].
        unfold made_dirs in *. now rewrite (omap_snoc_None mkdir_of) by reflexivity.
      - exists body. split; [now rewrite <- !app_assoc | exact Hdb]. }
    destruct Hshape as (rest & Ht & Hrest). split.
    + intros _. split.
      * rewrite Ht. unfold made_dirs in *. rewrite !omap_app, Hd0, Hrest. reflexivity.
      * exists t0, rest. now repeat split.
    + destruct Hcase as [[-> _] | (e & -> & _ & Hkind)]; [discriminate |].
      intros e' [= <-] [Hc | Hnf]; exfalso; destruct Hkind as [Hp | [_ Hr]].
      * exact (conversion_not_configuration _ Hp Hc).
      * exact (runner_failed_not_configuration _ Hr Hc).
      * exact (not_found_not_conversion _ Hnf Hp).
      * destruct Hr as (code & _ & ->). exact (runner_failed_not_found code Hnf).
Qed.

Lemma main_directories_witness :
  made_dirs (snd (run_main dry_args linux_host))
  = [Namespace.results_dir dry_args; Namespace.logs_dir dry_args].
Proof.
  refine (proj1 (proj1 (main_directories dry_args linux_host (Ok tt)
                          (snd (run_main dry_args linux_host)) _) _)).
  - vm_compute. reflexivity.
  - right. right. reflexivity.
Defined.

(** ** Completion marker *)

(** X10. The call [print("[validate] done")] is made exactly when the
    command ends normally: it is then the last event, and no other call of
    [print] has that text as its argument; when the command fails, no call
    of [print] has it.  ([printed] lists the arguments of the calls; an
    argument that holds a newline is still one entry.) *)
Theorem main_completion_marker (args : Namespace.t) (h : Host) (r : Result unit)
    (t : list Event) :
  run_main args h = (r, t) ->
  (r = Ok tt ->
   exists t' lines,
     t = t' ++ [Print done_line]
     /\ printed t = lines ++ [done_line]
     /\ ~ In done_line lines)
  /\ (forall e, r = Raise e -> ~ In done_line (printed t)).
Proof.
  intros Hmain.
  destruct (main_phases args h r t Hmain)
    as [(e & -> & Ft & Hkind) | (t0 & body & F0 & Fb & Hcase)].
  - split; [discriminate |]. intros _ _.
    destruct (converter_events_unseen t Ft) as (_ & -> & _). intros [].
  - cbv zeta in Hcase.
    destruct (made_dirs_setup t0 body (Namespace.results_dir args)
                (Namespace.logs_dir args) F0 Fb) as (_ & Hp).
    destruct (run_events_seen body Fb) as (_ & Hlines).
    assert (Hnot : ~ In done_line (printed body)).
    { intros Hin. rewrite Forall_forall in Hlines.
      apply list_elem_of_In in Hin. now apply (Hlines _ Hin). }
    destruct Hcase as [[-> ->] | (e & -> & -> & Hkind)].
    + split; [| discriminate]. intros _.
      exists ((t0 ++ [Mkdir (Namespace.results_dir args); Mkdir (Namespace.logs_dir args)])
              ++ body), (printed body).
      split; [now rewrite <- !app_assoc |]. split; [| exact Hnot].
      rewrite app_assoc. unfold printed in *. rewrite omap_app, Hp. reflexivity.
    + split; [discriminate |]. intros _ _. now rewrite Hp.
Qed.

Lemma main_completion_marker_witness :
  ~ In done_line (printed (snd (run_main full_args flaky_host))).
Proof.
  refine (proj2 (main_completion_marker full_args flaky_host
                   (fst (run_main full_args flaky_host))
                   (snd (run_main full_args flaky_host)) _) (runner_failed 3) _).
  - vm_compute. reflexivity.
  - vm_compute. reflexivity.
Defined.

(** ** Failures *)

Lemma error_prefix (e : Exception) (dry_run : bool) :
  may_raise dry_run e -> exists msg, e = SystemExit msg /\ String.prefix "Error: " msg = true.
Proof.
  intros [[-> | [-> | [c ->]]] | [[v ->] | [_ [[u ->] | (code & _ & ->)]]]];
    eexists; (split; [reflexivity |]); try reflexivity.
  destruct c; reflexivity.
Qed.

(** X11. The exits that the script raises itself, by its six
    [raise SystemExit] statements, all carry a message that starts with
    [Error: ], and each is of exactly one of the four kinds: a
    configuration error, a path-conversion error, a missing executable or
    a failed runner; the script raises neither of the last two in a
    simulated run.  (Errors of the interpreter and of argparse are not
    raised by the script and are not among them.) *)
Theorem main_failure_kinds (args : Namespace.t) (h : Host) (t : list Event)
    (e : Exception) :
  run_main args h = (Raise e, t) ->
  (exists msg, e = SystemExit msg /\ String.prefix "Error: " msg = true)
  /\ ((ConfigurationError e /\ ~ PathConversionError e
       /\ ~ ExecutableNotFoundError e /\ ~ RunnerFailedError e)
      \/ (PathConversionError e /\ ~ ConfigurationError e
          /\ ~ ExecutableNotFoundError e /\ ~ RunnerFailedError e)
      \/ (Namespace.dry_run args = false /\ ExecutableNotFoundError e
          /\ ~ ConfigurationError e /\ ~ PathConversionError e /\ ~ RunnerFailedError e)
      \/ (Namespace.dry_run args = false /\ RunnerFailedError e
          /\ ~ ConfigurationError e /\ ~ PathConversionError e
          /\ ~ ExecutableNotFoundError e)).
Proof.
  intros Hmain. pose proof (raises_main args h [] e t Hmain) as Hmay.
  split; [exact (error_prefix e _ Hmay) |].
  assert (Hrn : RunnerFailedError e -> ~ ExecutableNotFoundError e).
  { intros (code & _ & ->). apply runner_failed_not_found. }
  assert (Hrp : RunnerFailedError e -> ~ PathConversionError e).
  { intros (code & _ & ->). apply runner_failed_not_conversion. }
  destruct Hmay as [Hc | [Hp | [Hdry [Hn | Hr]]]].
  - left. split; [exact Hc |]. repeat split.
    + intros Hp. exact (conversion_not_configuration e Hp Hc).
    + intros Hn. exact (not_found_not_configuration e Hn Hc).
    + intros Hr. exact (runner_failed_not_configuration e Hr Hc).
  - right. left. split; [exact Hp |]. repeat split.
    + exact (conversion_not_configuration e Hp).
    + intros Hn. exact (not_found_not_conversion e Hn Hp).
    + intros Hr. exact (Hrp Hr Hp).
  - right. right. left. split; [exact Hdry |]. split; [exact Hn |]. repeat split.
    + exact (not_found_not_configuration e Hn).
    + exact (not_found_not_conversion e Hn).
    + intros Hr. exact (Hrn Hr Hn).
  - right. right. right. split; [exact Hdry |]. split; [exact Hr |]. repeat split.
    + exact (runner_failed_not_configuration e Hr).
    + exact (Hrp Hr).
    + exact (Hrn Hr).
Qed.

Lemma main_failure_kinds_witness :
  exists msg, runner_failed 3 = SystemExit msg /\ String.prefix "Error: " msg = true.
Proof.
  refine (proj1 (main_failure_kinds full_args flaky_host
                   (snd (run_main full_args flaky_host)) (runner_failed 3) _)).
  vm_compute. reflexivity.
Defined.

(** ** The order of the checks *)

(** X12. The platform is checked before the filter.  In single and suite
    mode without a platform the message is the one about the platform,
    whatever the filter; in single mode with a platform, a filter that is
    absent or the empty string gives the message about the filter.  In
    both cases nothing has been done. *)
Theorem main_check_order (args : Namespace.t) (h : Host) :
  (Namespace.command args <> full -> Namespace.platform args = None ->
   run_main args h
   = (Raise (SystemExit ("Error: " +:+ Command_str (Namespace.command args)
                         +:+ " requires --platform.")), []))
  /\ (Namespace.command args = single -> Namespace.platform args <> None ->
      Namespace.filter args = None \/ Namespace.filter args = Some EmptyString ->
      run_main args h = (Raise (SystemExit "Error: single requires --filter."), [])).
Proof.
  destruct args as [command platform filter unity project_path results_dir logs_dir dry_run].
  unfold run_main, main.
  cbn [Namespace.command Namespace.platform Namespace.filter Namespace.unity
       Namespace.dry_run Namespace.project_path Namespace.results_dir Namespace.logs_dir].
  split.
  - intros Hcmd ->. destruct command; [reflexivity | reflexivity | now destruct Hcmd].
  - intros -> Hplat Hfilter. destruct platform as [p|]; [| now destruct Hplat].
    destruct Hfilter as [-> | ->]; reflexivity.
Qed.

Lemma main_check_order_witness :
  run_main (with_filter (Some EmptyString) single_args) wsl_host
  = (Raise (SystemExit "Error: single requires --filter."), []).
Proof.
  apply (main_check_order (with_filter (Some EmptyString) single_args) wsl_host).
  - reflexivity.
  - discriminate.
  - right. reflexivity.
Defined.

(** ** Single and suite mode *)


